(** * Azure private-zone DNS provider (providers/dns/azure/private.go)

    A shallow embedding of [dnsProviderPrivate]: the TXT record
    reconciliation of [Present], the retraction of [CleanUp] and the zone
    resolution of [getHostedZoneID], over an explicit model of the
    collaborators the Go code calls (the Azure SDK clients, the [dns01]
    helpers, the environment and the Go runtime's map iteration). *)

From Stdlib Require Import ZArith.
From stdpp Require Import base option list strings gmap fin_maps.

Set Warnings "-clear-no-such-hyp".

Open Scope Z_scope.
Open Scope string_scope.
Open Scope list_scope.

(** ** Go errors *)

(** [autorest.DetailedError]: the fields the provider inspects. The SDK
    stores the HTTP status of the response, an [int], in [StatusCode]. *)
Record DetailedError := mkDetailedError {
  StatusCode : Z;
  Message : string
}.

(** The shapes of [error] values that reach the provider: a plain message
    ([errors.New], [fmt.Errorf] without [%w]), the SDK's detailed error, and
    the wrapper built by [fmt.Errorf] with [%w], which stores the formatted
    message together with the wrapped error. *)
Inductive error :=
| errorString (s : string)
| detailedError (e : DetailedError)
| wrapError (msg : string) (err : error).

(** [err.Error()] *)
Definition Error (e : error) : string :=
  match e with
  | errorString s => s
  | detailedError de => Message de
  | wrapError msg _ => msg
  end.

(** [errors.Unwrap(err)] *)
Definition Unwrap (e : error) : option error :=
  match e with
  | wrapError _ err => Some err
  | _ => None
  end.

(** [errors.As(err, &detailed)] for [detailed : autorest.DetailedError]: the
    first detailed error on the [Unwrap] chain. *)
Fixpoint errors_As (e : error) : option DetailedError :=
  match e with
  | errorString _ => None
  | detailedError de => Some de
  | wrapError _ err => errors_As err
  end.

(** [fmt.Errorf("azure: %w", err)] *)
Definition Errorf_azure (err : error) : error :=
  wrapError ("azure: " +:+ Error err) err.

(** [http.StatusNotFound] *)
Definition StatusNotFound : Z := 404.

(** ** SDK data ([privatedns] package)

    Pointer-typed fields are options: [None] is the nil pointer. *)

Inductive RecordType := A | AAAA | CNAME | MX | PTR | SOA | SRV | TXT.

Record TxtRecord := mkTxtRecord {
  Value : option (list string)
}.

Record RecordSetProperties := mkRecordSetProperties {
  TTL : option Z;
  TxtRecords : option (list TxtRecord)
}.

Record RecordSet := mkRecordSet {
  Name : option string;
  Properties : option RecordSetProperties
}.

Record PrivateZone := mkPrivateZone {
  ZoneName : option string
}.

(** Zero values, as Go returns them next to a non-nil error. *)
Class Zero (T : Type) := zero : T.
#[global] Instance string_zero : Zero string := "".
#[global] Instance unit_zero : Zero unit := tt.
#[global] Instance RecordSet_zero : Zero RecordSet := mkRecordSet None None.
#[global] Instance PrivateZone_zero : Zero PrivateZone := mkPrivateZone None.

(** [to.String], [to.StringSlice], [to.Int64Ptr] of go-autorest. *)
Definition to_String (s : option string) : string := default "" s.
Definition to_StringSlice (s : option (list string)) : list string := default [] s.
Definition to_Int64Ptr (i : Z) : option Z := Some i.

(** The conversion [int64(x)]. *)
Definition int64 (x : Z) : Z := (x + 2 ^ 63) mod 2 ^ 64 - 2 ^ 63.

(** ** Provider configuration and clients *)

(** Modelled from the spec: the [Config] struct is declared outside
    private.go; these are the fields of the spec's configuration
    (section 6) that private.go reads. Durations are in nanoseconds. *)
Record Config := mkConfig {
  ResourceManagerEndpoint : string;
  SubscriptionID : string;
  ResourceGroup : string;
  ConfigTTL : Z;
  PropagationTimeout : Z;
  PollingInterval : Z
}.

(** [autorest.Authorizer]: an opaque capability attached to each client. *)
Record Authorizer := mkAuthorizer { credential : string }.

Record dnsProviderPrivate := mkProvider {
  config : Config;
  authorizer : option Authorizer
}.

(** A [privatedns] client ([RecordSetsClient] and [PrivateZonesClient] have
    the same base). *)
Record Client := mkClient {
  BaseURI : string;
  ClientSubscriptionID : string;
  ClientAuthorizer : option Authorizer
}.

Definition NewClientWithBaseURI (baseURI subscriptionID : string) : Client :=
  mkClient baseURI subscriptionID None.

Definition withAuthorizer (c : Client) (a : option Authorizer) : Client :=
  mkClient (BaseURI c) (ClientSubscriptionID c) a.

(** [dns01.ChallengeInfo] *)
Record ChallengeInfo := mkChallengeInfo {
  EffectiveFQDN : string;
  ChallengeValue : string
}.

(** ** The outside world

    Every outbound call is recorded, with its arguments, in a trace. *)
Inductive Call :=
| FindZoneByFqdnCall (fqdn : string)
| PrivateZonesGetCall (dc : Client) (resourceGroup zoneName : string)
| RecordSetsGetCall (rsc : Client) (resourceGroup zone : string)
    (recordType : RecordType) (relativeName : string)
| RecordSetsCreateOrUpdateCall (rsc : Client) (resourceGroup zone : string)
    (recordType : RecordType) (relativeName : string) (parameters : RecordSet)
    (ifMatch ifNoneMatch : string)
| RecordSetsDeleteCall (rsc : Client) (resourceGroup zone : string)
    (recordType : RecordType) (relativeName : string) (ifMatch : string).

(** The outcome of a call that can fail. *)
Inductive response (T : Type) :=
| Ok (x : T)
| Fail (e : error).
Arguments Ok {T} x.
Arguments Fail {T} e.

(** Go's two results [(value, err)]: a failed call hands back the zero
    value of its result type (the SDK responders do not unmarshal a body
    once the status check has failed). *)
Definition results {T} `{Zero T} (r : response T) : T * option error :=
  match r with
  | Ok x => (x, None)
  | Fail e => (zero, Some e)
  end.

(** Go leaves the order of [for k := range m] unspecified: an iteration
    yields every key once, in some order. *)
Record MapRange := mkMapRange {
  range_keys : gmap string unit → list string;
  range_keys_perm : ∀ m, range_keys m ≡ₚ (map_to_list m).*1
}.

(** The collaborators of one call of the provider. [GetChallengeInfo],
    [FindZoneByFqdn] ([dns01]) and [GetOrFile] ([env]) live outside
    private.go; the four endpoints are the Azure management API. *)
Record World := mkWorld {
  GetChallengeInfo : string → string → ChallengeInfo;
  GetOrFile : string → string;
  FindZoneByFqdn : string → response string;
  PrivateZones_Get : Client → string → string → response PrivateZone;
  RecordSets_Get :
    Client → string → string → RecordType → string → response RecordSet;
  RecordSets_CreateOrUpdate :
    Client → string → string → RecordType → string → RecordSet →
    string → string → response RecordSet;
  RecordSets_Delete :
    Client → string → string → RecordType → string → string → response unit;
  map_range : MapRange
}.

(** [EnvZoneName] is declared in azure.go; only its being one fixed key
    matters below. *)
Definition EnvZoneName : string := "AZURE_ZONE_NAME".

(** ** Calls with a trace *)

Definition Trace := list Call.

Definition IO (T : Type) : Type := Trace → T * Trace.

#[global] Instance IO_ret : MRet IO := λ T x tr, (x, tr).
#[global] Instance IO_bind : MBind IO :=
  λ T U f m tr, let '(x, tr') := m tr in f x tr'.

(** Perform the outbound call [c], whose outcome is [r]. *)
Definition invoke {T} `{Zero T} (c : Call) (r : response T) : IO (T * option error) :=
  λ tr, (results r, tr ++ [c]).

(** How a call of a Go function ends: it returns its [error] result, or a
    run-time panic (nil dereference, index out of range) unwinds it. *)
Inductive completion :=
| Returns (err : option error)
| Panics.

(** Run from an empty trace. *)
Definition run {T} (m : IO T) : T * Trace := m [].

(** ** [dns01] name helpers *)

(** Modelled from the spec: [dns01.UnFqdn] is not in private.go; a zone
    name is written without its trailing dot (spec, section 3), so the
    helper drops one trailing dot when there is one. *)
Fixpoint UnFqdn (name : string) : string :=
  match name with
  | EmptyString => EmptyString
  | String c rest =>
      if decide (String c rest = ".") then EmptyString else String c (UnFqdn rest)
  end.

(** The fully-qualified spelling of a name: with its trailing dot. *)
Definition Fqdn (name : string) : string := UnFqdn name +:+ ".".

(** [strip_suffix suf s] is [Some p] when [s = p ++ suf], else [None]. *)
Fixpoint strip_suffix (suf s : string) : option string :=
  if decide (s = suf) then Some EmptyString
  else match s with
       | EmptyString => None
       | String c rest => String c <$> strip_suffix suf rest
       end.

(** The zone suffix stripped from a name, both compared fully qualified. *)
Definition strip_zone (domain zone : string) : option string :=
  strip_suffix ("." +:+ Fqdn zone) (Fqdn domain).

(** Modelled from the spec: [dns01.ExtractSubDomain] is not in private.go.
    SubDomain is "the relative record name obtained by stripping the zone
    suffix from the effective FQDN; must be non-empty after stripping or
    resolution fails"; the failure is the spec's SubDomainExtractionError
    ("the effective FQDN does not extend the resolved zone name"). *)
Definition ExtractSubDomain (domain zone : string) : response string :=
  match strip_zone domain zone with
  | Some sub =>
      if decide (sub = "")
      then Fail (errorString ("no subdomain: " +:+ domain +:+ " is the zone " +:+ zone))
      else Ok sub
  | None => Fail (errorString (domain +:+ " is not a subdomain of " +:+ zone))
  end.

(** ** The provider *)

Section Provider.

Context (w : World).

(** [Timeout] returns the timeout and interval to use when checking for
    DNS propagation. *)
Definition Timeout (d : dnsProviderPrivate) : Z * Z :=
  (PropagationTimeout (config d), PollingInterval (config d)).

(** Checks that azure has a zone for this domain name. *)
Definition getHostedZoneID (d : dnsProviderPrivate) (fqdn : string)
  : IO (string * option error) :=
  let zone := GetOrFile w EnvZoneName in
  if decide (zone ≠ "") then mret (zone, None) else
  '(authZone, err) ← invoke (FindZoneByFqdnCall fqdn) (FindZoneByFqdn w fqdn);
  match err with
  | Some e => mret ("", Some e)
  | None =>
      let dc := NewClientWithBaseURI (ResourceManagerEndpoint (config d))
                                     (SubscriptionID (config d)) in
      let dc := withAuthorizer dc (authorizer d) in
      let rg := ResourceGroup (config d) in
      '(zone, err) ← invoke (PrivateZonesGetCall dc rg (UnFqdn authZone))
                            (PrivateZones_Get w dc rg (UnFqdn authZone));
      match err with
      | Some e => mret ("", Some e)
      | None => mret (to_String (ZoneName zone), None)
      end
  end.

(** Lines 56-66 of [Present]: the unique TXT values, as the keys of a map.
    Indexing a slice out of range panics at run time: [None] stands for the
    panic. One turn of the loop over the existing records: *)
Definition addRecord (uniq : gmap string unit) (txtRecord : TxtRecord)
  : option (gmap string unit) :=
  (* Assume Value doesn't contain multiple strings *)
  let values := to_StringSlice (Value txtRecord) in
  if bool_decide (0 < length values)%nat
  then v0 ← values !! 0%nat; Some (<[v0 := tt]> uniq)
  else Some uniq.

(** [for _, txtRecord := range *rset.TxtRecords] *)
Fixpoint mergeRecords (uniq : gmap string unit) (records : list TxtRecord)
  : option (gmap string unit) :=
  match records with
  | [] => Some uniq
  | txtRecord :: rest => uniq' ← addRecord uniq txtRecord; mergeRecords uniq' rest
  end.

(** The guard [rset.RecordSetProperties != nil && rset.TxtRecords != nil]
    short-circuits, so the promoted field is only read through a non-nil
    pointer. *)
Definition uniqRecords (info : ChallengeInfo) (rset : RecordSet)
  : option (gmap string unit) :=
  let uniq : gmap string unit := {[ChallengeValue info := tt]} in
  match Properties rset with
  | Some props =>
      match TxtRecords props with
      | Some records => mergeRecords uniq records
      | None => Some uniq
      end
  | None => Some uniq
  end.

(** Lines 68-71: one single-valued TXT record per key, in iteration order. *)
Definition txtRecords (uniq : gmap string unit) : list TxtRecord :=
  (λ txt, mkTxtRecord (Some [txt])) <$> range_keys (map_range w) uniq.

(** Lines 73-79: the record set handed to the write endpoint. *)
Definition newRecordSet (d : dnsProviderPrivate) (subDomain : string)
    (records : list TxtRecord) : RecordSet :=
  mkRecordSet (Some subDomain)
    (Some (mkRecordSetProperties (to_Int64Ptr (int64 (ConfigTTL (config d))))
                                 (Some records))).

(** The test of lines 49-54: a fetch error is fatal unless it is a detailed
    error with status 404. *)
Definition fetchFatal (err : error) : bool :=
  match errors_As err with
  | Some detailed => negb (Z.eqb (StatusCode detailed) StatusNotFound)
  | None => true
  end.

(** [Present] creates a TXT record to fulfill the dns-01 challenge. *)
Definition Present (d : dnsProviderPrivate) (domain token keyAuth : string)
  : IO completion :=
  let info := GetChallengeInfo w domain keyAuth in
  '(zone, err) ← getHostedZoneID d (EffectiveFQDN info);
  match err with
  | Some e => mret (Returns (Some (Errorf_azure e)))
  | None =>
  let rsc := NewClientWithBaseURI (ResourceManagerEndpoint (config d))
                                  (SubscriptionID (config d)) in
  let rsc := withAuthorizer rsc (authorizer d) in
  let '(subDomain, err) := results (ExtractSubDomain (EffectiveFQDN info) zone) in
  match err with
  | Some e => mret (Returns (Some (Errorf_azure e)))
  | None =>
  let rg := ResourceGroup (config d) in
  (* Get existing record set *)
  '(rset, err) ← invoke (RecordSetsGetCall rsc rg zone TXT subDomain)
                        (RecordSets_Get w rsc rg zone TXT subDomain);
  if match err with Some e => fetchFatal e | None => false end
  then mret (Returns (Errorf_azure <$> err))
  else
  (* Construct unique TXT records using map *)
  match uniqRecords info rset with
  | None => mret Panics
  | Some uniq =>
  let rec := newRecordSet d subDomain (txtRecords uniq) in
  '(_, err) ← invoke (RecordSetsCreateOrUpdateCall rsc rg zone TXT subDomain rec "" "")
                     (RecordSets_CreateOrUpdate w rsc rg zone TXT subDomain rec "" "");
  match err with
  | Some e => mret (Returns (Some (Errorf_azure e)))
  | None => mret (Returns None)
  end
  end
  end
  end.

(** [CleanUp] removes the TXT record matching the specified parameters. *)
Definition CleanUp (d : dnsProviderPrivate) (domain token keyAuth : string)
  : IO (option error) :=
  let info := GetChallengeInfo w domain keyAuth in
  '(zone, err) ← getHostedZoneID d (EffectiveFQDN info);
  match err with
  | Some e => mret (Some (Errorf_azure e))
  | None =>
  let '(subDomain, err) := results (ExtractSubDomain (EffectiveFQDN info) zone) in
  match err with
  | Some e => mret (Some (Errorf_azure e))
  | None =>
  let rsc := NewClientWithBaseURI (ResourceManagerEndpoint (config d))
                                  (SubscriptionID (config d)) in
  let rsc := withAuthorizer rsc (authorizer d) in
  let rg := ResourceGroup (config d) in
  '(_, err) ← invoke (RecordSetsDeleteCall rsc rg zone TXT subDomain "")
                     (RecordSets_Delete w rsc rg zone TXT subDomain "");
  match err with
  | Some e => mret (Some (Errorf_azure e))
  | None => mret None
  end
  end
  end.

End Provider.

(** ** Test doubles

    Concrete collaborators, in the manner of the provider's unit tests:
    a zone walk that always finds [example.com.], a zone-read endpoint that
    echoes the queried name, and record endpoints with fixed outcomes. *)

(** Iteration in the map's internal order, and in the reverse of it. *)
Definition rangeForward : MapRange :=
  mkMapRange (λ m, (map_to_list m).*1) (λ m, reflexivity _).

Definition rangeBackward : MapRange :=
  mkMapRange (λ m, reverse (map_to_list m).*1)
             (λ m, reverse_Permutation (map_to_list m).*1).

Definition txt (values : list string) : TxtRecord := mkTxtRecord (Some values).

Definition stored (name : string) (records : list TxtRecord) : RecordSet :=
  mkRecordSet (Some name) (Some (mkRecordSetProperties (Some 60) (Some records))).

Definition notFound : error :=
  detailedError (mkDetailedError 404 "privatedns.RecordSetsClient#Get: StatusCode=404").

Definition testWorld (override : string) (zoneRead : string → response PrivateZone)
    (fetch : response RecordSet) (write : response RecordSet)
    (delete : response unit) (order : MapRange) : World :=
  {| GetChallengeInfo domain keyAuth :=
       mkChallengeInfo ("_acme-challenge." +:+ domain +:+ ".") keyAuth;
     GetOrFile _ := override;
     FindZoneByFqdn _ := Ok "example.com.";
     PrivateZones_Get _ _ zoneName := zoneRead zoneName;
     RecordSets_Get _ _ _ _ _ := fetch;
     RecordSets_CreateOrUpdate _ _ _ _ _ _ _ _ := write;
     RecordSets_Delete _ _ _ _ _ _ := delete;
     map_range := order |}.

Definition echoZone (zoneName : string) : response PrivateZone :=
  Ok (mkPrivateZone (Some zoneName)).

Definition testProvider : dnsProviderPrivate :=
  mkProvider (mkConfig "https://management.azure.com" "sub-1" "rg-1" 60
                       120000000000 2000000000)
             (Some (mkAuthorizer "token")).

(** ** Observations on record sets and traces *)

(** The TXT records of a record set ([nil] pointers read as no record). *)
Definition existingRecords (rset : RecordSet) : list TxtRecord :=
  default [] (Properties rset ≫= TxtRecords).

(** Every string of every TXT record of a record set. *)
Definition recordValues (rset : RecordSet) : list string :=
  existingRecords rset ≫= (λ r, to_StringSlice (Value r)).

(** The first string of each TXT record that has one. *)
Definition firstValues (records : list TxtRecord) : list string :=
  omap (λ r, head (to_StringSlice (Value r))) records.

(** The record sets handed to the write endpoint along a trace. *)
Definition written (tr : Trace) : list RecordSet :=
  omap (λ c, match c with
             | RecordSetsCreateOrUpdateCall _ _ _ _ _ parameters _ _ => Some parameters
             | _ => None
             end) tr.

Inductive Endpoint :=
| ZoneWalk | ZoneRead | RecordRead | RecordWrite | RecordDelete.

Definition endpoint (c : Call) : Endpoint :=
  match c with
  | FindZoneByFqdnCall _ => ZoneWalk
  | PrivateZonesGetCall _ _ _ => ZoneRead
  | RecordSetsGetCall _ _ _ _ _ => RecordRead
  | RecordSetsCreateOrUpdateCall _ _ _ _ _ _ _ _ => RecordWrite
  | RecordSetsDeleteCall _ _ _ _ _ _ => RecordDelete
  end.

(** A record read, write or delete. *)
Definition isRecordCall (c : Call) : bool :=
  match endpoint c with
  | RecordRead | RecordWrite | RecordDelete => true
  | ZoneWalk | ZoneRead => false
  end.

Definition failure {T} (r : response T) : option error :=
  match r with
  | Ok _ => None
  | Fail e => Some e
  end.

(** The error, if any, with which the world answers a call. *)
Definition callError (w : World) (c : Call) : option error :=
  match c with
  | FindZoneByFqdnCall fqdn => failure (FindZoneByFqdn w fqdn)
  | PrivateZonesGetCall dc rg zoneName => failure (PrivateZones_Get w dc rg zoneName)
  | RecordSetsGetCall rsc rg zone rt name => failure (RecordSets_Get w rsc rg zone rt name)
  | RecordSetsCreateOrUpdateCall rsc rg zone rt name rec ifMatch ifNoneMatch =>
      failure (RecordSets_CreateOrUpdate w rsc rg zone rt name rec ifMatch ifNoneMatch)
  | RecordSetsDeleteCall rsc rg zone rt name ifMatch =>
      failure (RecordSets_Delete w rsc rg zone rt name ifMatch)
  end.


Fixpoint hasTrailingDot (s : string) : bool :=
  match s with
  | EmptyString => false
  | String c rest => bool_decide (String c rest = ".") || hasTrailingDot rest
  end.

(** The record set on which the merge of [Present] runs after the read
    answered [r]: none when the read error is fatal, the zero record set
    after a swallowed 404. *)
Definition fetched (r : response RecordSet) : option RecordSet :=
  match r with
  | Ok rset => Some rset
  | Fail e => if fetchFatal e then None else Some zero
  end.

(** The client both [Present] and [CleanUp] build for the record sets. *)
Definition recordSetsClient (d : dnsProviderPrivate) : Client :=
  withAuthorizer (NewClientWithBaseURI (ResourceManagerEndpoint (config d))
                                       (SubscriptionID (config d)))
                 (authorizer d).

(** The world in which every record read answers with [rset], and maps are
    iterated in the order [order]; all else as in [w]. *)
Definition refetch (w : World) (order : MapRange) (rset : RecordSet) : World :=
  {| GetChallengeInfo := GetChallengeInfo w;
     GetOrFile := GetOrFile w;
     FindZoneByFqdn := FindZoneByFqdn w;
     PrivateZones_Get := PrivateZones_Get w;
     RecordSets_Get _ _ _ _ _ := Ok rset;
     RecordSets_CreateOrUpdate := RecordSets_CreateOrUpdate w;
     RecordSets_Delete := RecordSets_Delete w;
     map_range := order |}.

(** The worlds of the examples below. The challenge is published for
    [www.example.com]; its record lives at [_acme-challenge.www] in the
    zone [example.com]. *)

Definition forbidden : error :=
  detailedError (mkDetailedError 403 "privatedns.RecordSetsClient#Get: StatusCode=403").

(** No record set at the name; the delete endpoint accepts the delete. *)
Definition absentWorld : World :=
  testWorld "" echoZone (Fail notFound) (Ok zero) (Ok tt) rangeForward.

(** No record set at the name; the delete endpoint answers 404. *)
Definition strictDeleteWorld : World :=
  testWorld "" echoZone (Fail notFound) (Ok zero) (Fail notFound) rangeForward.

(** The record read is refused. *)
Definition forbiddenWorld : World :=
  testWorld "" echoZone (Fail forbidden) (Ok zero) (Ok tt) rangeForward.

(** A zone override that is not the zone the walk would find. *)
Definition overrideWorld : World :=
  testWorld "corp.internal" echoZone (Fail notFound) (Ok zero) (Ok tt) rangeForward.

(** The zone-read endpoint spells zone names with a trailing dot. *)
Definition dottedWorld : World :=
  testWorld "" (λ zoneName, Ok (mkPrivateZone (Some (zoneName +:+ "."))))
            (Fail notFound) (Ok zero) (Ok tt) rangeForward.

(** Two single-valued records exist at the name. *)
Definition twoValuesWorld : World :=
  testWorld "" echoZone (Ok (stored "_acme-challenge.www" [txt ["b"]; txt ["a"]]))
            (Ok zero) (Ok tt) rangeBackward.

(** An existing record holds two strings; others hold none. *)
Definition multiStringWorld : World :=
  testWorld "" echoZone
            (Ok (stored "_acme-challenge.www"
                        [txt ["a"; "tail"]; mkTxtRecord None; txt []]))
            (Ok zero) (Ok tt) rangeForward.

(** The two calls by which these worlds resolve the zone of
    [www.example.com]. *)
Definition walkedTrace : Trace :=
  [FindZoneByFqdnCall "_acme-challenge.www.example.com.";
   PrivateZonesGetCall (recordSetsClient testProvider) "rg-1" "example.com"].

#[global] Instance Endpoint_eq_dec : EqDecision Endpoint.
Proof. solve_decision. Defined.

(** How a failed call of [Present] or [CleanUp] on [fqdn] stopped: the
    returned [err] wraps, under the prefix, the error [e] of the step that
    failed, which is either the last outbound call of the trace or the
    subdomain extraction (then no record endpoint was reached); and no
    endpoint was called twice. *)
Definition stoppedAt (w : World) (fqdn : string) (err : error) (tr : Trace) : Prop :=
  ∃ e, err = Errorf_azure e
       ∧ Error err = "azure: " +:+ Error e
       ∧ Unwrap err = Some e
       ∧ ((∃ tr' c, tr = tr' ++ [c] ∧ callError w c = Some e)
          ∨ (∃ zone, ExtractSubDomain fqdn zone = Fail e
                     ∧ Forall (λ c, isRecordCall c = false) tr))
       ∧ NoDup (endpoint <$> tr).

(** The client and the resource group with which a call reaches the
    management API (the zone walk is a DNS lookup, not an API call). *)
Definition apiTarget (c : Call) : option (Client * string) :=
  match c with
  | FindZoneByFqdnCall _ => None
  | PrivateZonesGetCall dc rg _ => Some (dc, rg)
  | RecordSetsGetCall rsc rg _ _ _ => Some (rsc, rg)
  | RecordSetsCreateOrUpdateCall rsc rg _ _ _ _ _ _ => Some (rsc, rg)
  | RecordSetsDeleteCall rsc rg _ _ _ _ => Some (rsc, rg)
  end.

(** The record set a record call addresses: zone, record type and
    relative name. *)
Definition recordKey (c : Call) : option (string * RecordType * string) :=
  match c with
  | RecordSetsGetCall _ _ zone rt name => Some (zone, rt, name)
  | RecordSetsCreateOrUpdateCall _ _ zone rt name _ _ _ => Some (zone, rt, name)
  | RecordSetsDeleteCall _ _ zone rt name _ => Some (zone, rt, name)
  | _ => None
  end.

(** The zone a record call addresses. *)
Definition callZone (c : Call) : option string :=
  (λ k, k.1.1) <$> recordKey c.

(** The range of [int64]. *)
Definition inInt64 (x : Z) : Prop := - 2 ^ 63 ≤ x < 2 ^ 63.

(** A record set of another tenant of the name, with a TTL of its own
    and a duplicated value. *)
Definition duplicatedWorld : World :=
  testWorld "" echoZone
            (Ok (mkRecordSet (Some "_acme-challenge.www")
                   (Some (mkRecordSetProperties (Some 3600)
                            (Some [txt ["a"]; txt ["a"]; txt ["b"]])))))
            (Ok zero) (Ok tt) rangeForward.

(** Like [absentWorld], with the zone fixed by an override. *)
Definition overrideAbsentWorld : World :=
  testWorld "example.com" echoZone (Fail notFound) (Ok zero) (Ok tt) rangeForward.

(** * Properties *)

(** ** Examples *)

(** The relative name of the spec's example (section 8). *)
Example ExtractSubDomain_spec_example :
  ExtractSubDomain "_acme-challenge.sub.example.com." "example.com"
  = Ok "_acme-challenge.sub".
Proof. reflexivity. Qed.

Example ExtractSubDomain_zone_itself :
  failure (ExtractSubDomain "example.com." "example.com") ≠ None.
Proof. done. Qed.

(** Publishing at a name without a record creates one TXT value; cleaning
    up deletes the record set at the same name. *)
Example present_then_cleanup :
  run (Present absentWorld testProvider "www.example.com" "token" "c")
  = (Returns None,
     walkedTrace ++
     [RecordSetsGetCall (recordSetsClient testProvider) "rg-1" "example.com" TXT
                        "_acme-challenge.www";
      RecordSetsCreateOrUpdateCall (recordSetsClient testProvider) "rg-1"
        "example.com" TXT "_acme-challenge.www"
        (stored "_acme-challenge.www" [txt ["c"]]) "" ""])
  ∧ run (CleanUp absentWorld testProvider "www.example.com" "token" "c")
    = (None,
       walkedTrace ++
       [RecordSetsDeleteCall (recordSetsClient testProvider) "rg-1" "example.com" TXT
                             "_acme-challenge.www" ""]).
Proof. split; reflexivity. Qed.

(** A second string of an existing record is dropped by the merge. *)
Example present_drops_second_string :
  written (run (Present multiStringWorld testProvider "www.example.com" "token" "c")).2
  = [stored "_acme-challenge.www" [txt ["c"]; txt ["a"]]].
Proof. reflexivity. Qed.

Example Timeout_reads_config : Timeout testProvider = (120000000000, 2000000000).
Proof. reflexivity. Qed.

(** ** The merge step *)

Section Merge.

Implicit Types (uniq : gmap string unit) (records : list TxtRecord).

(** The bounds check of the loop body makes the index safe. *)
Lemma addRecord_head uniq r :
  addRecord uniq r =
  Some (match head (to_StringSlice (Value r)) with
        | Some v0 => <[v0 := tt]> uniq
        | None => uniq
        end).
Proof.
  unfold addRecord. destruct (to_StringSlice (Value r)) as [|v0 rest].
  - rewrite bool_decide_eq_false_2; [done | simpl; lia].
  - rewrite bool_decide_eq_true_2; [done | simpl; lia].
Qed.

Lemma mergeRecords_dom records : ∀ uniq,
  ∃ m, mergeRecords uniq records = Some m
       ∧ dom m = dom uniq ∪ list_to_set (firstValues records).
Proof.
  induction records as [|r rest IH]; intros uniq; simpl.
  - exists uniq. split; [done | set_solver].
  - rewrite addRecord_head. simpl. unfold firstValues. simpl.
    destruct (head (to_StringSlice (Value r))) as [v0|] eqn:Hhd.
    + destruct (IH (<[v0 := tt]> uniq)) as (m & -> & Hdom).
      exists m. split; [done |].
      rewrite Hdom, dom_insert_L, list_to_set_cons. unfold firstValues. set_solver.
    + destruct (IH uniq) as (m & -> & Hdom). by exists m.
Qed.

(** The merge never panics, and its keys are the challenge value together
    with the first string of every existing record. *)
Lemma uniqRecords_dom info rset :
  ∃ m, uniqRecords info rset = Some m
       ∧ dom m = {[ChallengeValue info]} ∪ list_to_set (firstValues (existingRecords rset)).
Proof.
  unfold uniqRecords, existingRecords.
  destruct (Properties rset) as [props|]; simpl;
    [destruct (TxtRecords props) as [records|]; simpl |].
  - destruct (mergeRecords_dom records {[ChallengeValue info := tt]}) as (m & -> & Hdom).
    exists m. split; [done |]. by rewrite Hdom, dom_singleton_L.
  - eexists. split; [done |]. rewrite dom_singleton_L. set_solver.
  - eexists. split; [done |]. rewrite dom_singleton_L. set_solver.
Qed.

Lemma elem_of_firstValues records x :
  x ∈ firstValues records ↔
  ∃ r rest, r ∈ records ∧ Value r = Some (x :: rest).
Proof.
  unfold firstValues. rewrite list_elem_of_omap. split.
  - intros (r & Hr & Hhd). destruct r as [[[|v0 rest]|]]; simplify_eq/=.
    by exists (mkTxtRecord (Some (x :: rest))), rest.
  - intros (r & rest & Hr & HV). exists r. split; [done |]. by rewrite HV.
Qed.

Lemma range_keys_elem (order : MapRange) uniq x :
  x ∈ range_keys order uniq ↔ x ∈ dom uniq.
Proof.
  rewrite (range_keys_perm order uniq), elem_of_dom, list_elem_of_fmap. split.
  - intros ([k u] & -> & Hin). apply elem_of_map_to_list in Hin. by exists u.
  - intros [u Hu]. exists (x, u). split; [done |]. by apply elem_of_map_to_list.
Qed.

Lemma range_keys_NoDup (order : MapRange) uniq : NoDup (range_keys order uniq).
Proof. rewrite (range_keys_perm order uniq). apply NoDup_fst_map_to_list. Qed.

(** The strings of the record set built from a map are its keys, each in a
    record of its own, in iteration order. *)
Lemma recordValues_newRecordSet w d subDomain uniq :
  recordValues (newRecordSet d subDomain (txtRecords w uniq)) =
  range_keys (map_range w) uniq.
Proof.
  unfold recordValues, existingRecords, newRecordSet, txtRecords. simpl.
  generalize (range_keys (map_range w) uniq). intros keys.
  induction keys as [|k ks IH]; [done |].
  rewrite fmap_cons, bind_cons, IH. done.
Qed.

Lemma newRecordSet_elem w d subDomain uniq x :
  x ∈ recordValues (newRecordSet d subDomain (txtRecords w uniq)) ↔ x ∈ dom uniq.
Proof. rewrite recordValues_newRecordSet. apply range_keys_elem. Qed.

Lemma newRecordSet_NoDup w d subDomain uniq :
  NoDup (recordValues (newRecordSet d subDomain (txtRecords w uniq))).
Proof. rewrite recordValues_newRecordSet. apply range_keys_NoDup. Qed.

End Merge.

(** ** Control flow *)

Section Resolution.

Context (w : World) (d : dnsProviderPrivate).

(** The private-zones client of [getHostedZoneID] is built like the
    record-sets client. *)
Abbreviation dc := (recordSetsClient d).
Abbreviation rg := (ResourceGroup (config d)).

(** The four ways through [getHostedZoneID]. *)
Lemma getHostedZoneID_cases fqdn :
  (GetOrFile w EnvZoneName ≠ "" ∧
   run (getHostedZoneID w d fqdn) = ((GetOrFile w EnvZoneName, None), []))
  ∨ (GetOrFile w EnvZoneName = "" ∧ ∃ e,
     FindZoneByFqdn w fqdn = Fail e ∧
     run (getHostedZoneID w d fqdn) = (("", Some e), [FindZoneByFqdnCall fqdn]))
  ∨ (GetOrFile w EnvZoneName = "" ∧ ∃ authZone e,
     FindZoneByFqdn w fqdn = Ok authZone ∧
     PrivateZones_Get w dc rg (UnFqdn authZone) = Fail e ∧
     run (getHostedZoneID w d fqdn) =
       (("", Some e),
        [FindZoneByFqdnCall fqdn; PrivateZonesGetCall dc rg (UnFqdn authZone)]))
  ∨ (GetOrFile w EnvZoneName = "" ∧ ∃ authZone zone,
     FindZoneByFqdn w fqdn = Ok authZone ∧
     PrivateZones_Get w dc rg (UnFqdn authZone) = Ok zone ∧
     run (getHostedZoneID w d fqdn) =
       ((to_String (ZoneName zone), None),
        [FindZoneByFqdnCall fqdn; PrivateZonesGetCall dc rg (UnFqdn authZone)])).
Proof.
  unfold run, getHostedZoneID, mbind, IO_bind, mret, IO_ret, invoke.
  destruct (decide (GetOrFile w EnvZoneName ≠ "")) as [Hov|Hov]; [by left |].
  right. apply dec_stable in Hov.
  destruct (FindZoneByFqdn w fqdn) as [authZone|e] eqn:Hwalk; simpl.
  - right. fold (recordSetsClient d).
    destruct (PrivateZones_Get w dc rg (UnFqdn authZone)) as [zone|e] eqn:Hread; simpl.
    + right. split; [done |]. by exists authZone, zone.
    + left. split; [done |]. by exists authZone, e.
  - left. split; [done |]. by exists e.
Qed.

End Resolution.

(** Case analysis on a run [Hrun] of the zone resolution. *)
Ltac zone_cases Hrun :=
  match type of Hrun with
  | run (getHostedZoneID ?w ?d ?fqdn) = _ =>
      let H := fresh "Hcase" in
      destruct (getHostedZoneID_cases w d fqdn)
        as [[_ H]|[(_ & ? & ? & H)|[(_ & ? & ? & ? & ? & H)|(_ & ? & ? & ? & ? & H)]]];
      rewrite H in Hrun; simplify_eq
  end.

(** The answer of the world to a call that a hypothesis records. *)
Ltac answered :=
  simpl;
  match goal with
  | H : ?call = Fail _ |- context [?call] => by rewrite H
  | H : ?call = Ok _ |- context [?call] => by rewrite H
  end.

(** Zone resolution touches no record endpoint. *)
Lemma getHostedZoneID_trace w d fqdn r tz :
  run (getHostedZoneID w d fqdn) = (r, tz) →
  Forall (λ c, isRecordCall c = false) tz.
Proof. intros Hrun. zone_cases Hrun; by repeat constructor. Qed.

(** It calls the walk, then the zone read, each at most once. *)
Lemma getHostedZoneID_endpoints w d fqdn r tz :
  run (getHostedZoneID w d fqdn) = (r, tz) →
  endpoint <$> tz = [] ∨ endpoint <$> tz = [ZoneWalk]
  ∨ endpoint <$> tz = [ZoneWalk; ZoneRead].
Proof. intros Hrun. zone_cases Hrun; auto. Qed.

(** When zone resolution fails, its last call is the one that failed. *)
Lemma getHostedZoneID_failure w d fqdn zone e tz :
  run (getHostedZoneID w d fqdn) = ((zone, Some e), tz) →
  ∃ tz' c, tz = tz' ++ [c] ∧ callError w c = Some e.
Proof.
  intros Hrun. zone_cases Hrun.
  - exists [], (FindZoneByFqdnCall fqdn). split; [done | answered].
  - eexists [FindZoneByFqdnCall fqdn], (PrivateZonesGetCall _ _ _).
    split; [done | answered].
Qed.

Section Flow.

Context (w : World) (d : dnsProviderPrivate).

Abbreviation rsc := (recordSetsClient d).
Abbreviation rg := (ResourceGroup (config d)).

Section Resolved.

Context (domain token keyAuth : string).

Abbreviation info := (GetChallengeInfo w domain keyAuth).

Context (zone : string) (tz : Trace).
Hypothesis Hzone :
  run (getHostedZoneID w d (EffectiveFQDN info)) = ((zone, None), tz).

Lemma Present_extract_error e :
  ExtractSubDomain (EffectiveFQDN info) zone = Fail e →
  run (Present w d domain token keyAuth) = (Returns (Some (Errorf_azure e)), tz).
Proof.
  intros Hsub. unfold run in *. unfold Present, mbind, IO_bind.
  rewrite Hzone, Hsub. done.
Qed.

Lemma CleanUp_extract_error e :
  ExtractSubDomain (EffectiveFQDN info) zone = Fail e →
  run (CleanUp w d domain token keyAuth) = (Some (Errorf_azure e), tz).
Proof.
  intros Hsub. unfold run in *. unfold CleanUp, mbind, IO_bind.
  rewrite Hzone, Hsub. done.
Qed.

Context (subDomain : string).
Hypothesis Hsub : ExtractSubDomain (EffectiveFQDN info) zone = Ok subDomain.

Abbreviation fetchCall := (RecordSetsGetCall rsc rg zone TXT subDomain).
Abbreviation fetch := (RecordSets_Get w rsc rg zone TXT subDomain).

Lemma Present_fetch_error e :
  fetch = Fail e → fetchFatal e = true →
  run (Present w d domain token keyAuth) =
  (Returns (Some (Errorf_azure e)), tz ++ [fetchCall]).
Proof.
  intros Hget Hfatal. unfold run in *.
  unfold Present, mbind, IO_bind, invoke. rewrite Hzone, Hsub. simpl.
  fold (recordSetsClient d). rewrite Hget. simpl. by rewrite Hfatal.
Qed.

Lemma Present_write rset uniq :
  fetched fetch = Some rset →
  uniqRecords info rset = Some uniq →
  let rec := newRecordSet d subDomain (txtRecords w uniq) in
  run (Present w d domain token keyAuth) =
  (Returns (Errorf_azure <$>
            failure (RecordSets_CreateOrUpdate w rsc rg zone TXT subDomain rec "" "")),
   tz ++ [fetchCall; RecordSetsCreateOrUpdateCall rsc rg zone TXT subDomain rec "" ""]).
Proof.
  intros Hget Huniq. cbv zeta. unfold run in *.
  unfold Present, mbind, IO_bind, invoke. rewrite Hzone, Hsub. simpl.
  fold (recordSetsClient d). unfold fetched in Hget.
  destruct fetch as [rset'|e]; simpl.
  - simplify_eq. rewrite Huniq.
    destruct (RecordSets_CreateOrUpdate w rsc rg zone TXT subDomain _ "" "");
      simpl; by rewrite <-app_assoc.
  - destruct (fetchFatal e); [done |]. simplify_eq.
    unfold zero, RecordSet_zero, uniqRecords in Huniq. simpl in Huniq. simplify_eq.
    destruct (RecordSets_CreateOrUpdate w rsc rg zone TXT subDomain _ "" "");
      simpl; by rewrite <-app_assoc.
Qed.

Lemma CleanUp_delete :
  run (CleanUp w d domain token keyAuth) =
  (Errorf_azure <$> failure (RecordSets_Delete w rsc rg zone TXT subDomain ""),
   tz ++ [RecordSetsDeleteCall rsc rg zone TXT subDomain ""]).
Proof.
  unfold run in *. unfold CleanUp, mbind, IO_bind, invoke. rewrite Hzone, Hsub. simpl.
  fold (recordSetsClient d).
  by destruct (RecordSets_Delete w rsc rg zone TXT subDomain "").
Qed.

End Resolved.

Lemma Present_zone_error domain token keyAuth zone e tz :
  run (getHostedZoneID w d (EffectiveFQDN (GetChallengeInfo w domain keyAuth)))
    = ((zone, Some e), tz) →
  run (Present w d domain token keyAuth) = (Returns (Some (Errorf_azure e)), tz).
Proof.
  intros Hzone. unfold run in *. unfold Present, mbind, IO_bind. by rewrite Hzone.
Qed.

Lemma CleanUp_zone_error domain token keyAuth zone e tz :
  run (getHostedZoneID w d (EffectiveFQDN (GetChallengeInfo w domain keyAuth)))
    = ((zone, Some e), tz) →
  run (CleanUp w d domain token keyAuth) = (Some (Errorf_azure e), tz).
Proof.
  intros Hzone. unfold run in *. unfold CleanUp, mbind, IO_bind. by rewrite Hzone.
Qed.

End Flow.

(** ** Zone resolution *)

(** C4: with a non-empty zone override configured, zone resolution returns
    the override verbatim and makes no outbound call at all (neither the
    suffix walk nor the zone-read endpoint), whatever the FQDN and whatever
    zone the walk would have found for it. *)
Theorem zone_override_precedence w d fqdn :
  GetOrFile w EnvZoneName ≠ "" →
  run (getHostedZoneID w d fqdn) = ((GetOrFile w EnvZoneName, None), []).
Proof.
  intros Hov.
  destruct (getHostedZoneID_cases w d fqdn)
    as [[_ H]|[(Hno & _)|[(Hno & _)|(Hno & _)]]]; done.
Qed.

Lemma zone_override_precedence_witness :
  GetOrFile overrideWorld EnvZoneName ≠ "" ∧
  run (getHostedZoneID overrideWorld testProvider "_acme-challenge.www.example.com.")
  = (("corp.internal", None), []).
Proof.
  split; [done |].
  apply (zone_override_precedence overrideWorld testProvider
           "_acme-challenge.www.example.com."). done.
Defined.

(** C6, as stated, fails: a zone name that the zone-read endpoint supplies
    with a trailing dot is returned with that dot. *)
Lemma zone_name_keeps_trailing_dot :
  run (getHostedZoneID dottedWorld testProvider "_acme-challenge.www.example.com.")
  = (("example.com.", None),
     [FindZoneByFqdnCall "_acme-challenge.www.example.com.";
      PrivateZonesGetCall (recordSetsClient testProvider) "rg-1" "example.com"])
  ∧ hasTrailingDot "example.com." = true.
Proof. split; reflexivity. Qed.

(** C6, amended: without an override, after a successful walk and zone
    read, zone resolution returns the name the zone-read endpoint supplied,
    verbatim (the empty string for an absent name); so the result has a
    trailing dot exactly when the supplied name has one. *)
Theorem zone_name_verbatim w d fqdn authZone zone :
  GetOrFile w EnvZoneName = "" →
  FindZoneByFqdn w fqdn = Ok authZone →
  PrivateZones_Get w (recordSetsClient d) (ResourceGroup (config d)) (UnFqdn authZone)
    = Ok zone →
  ∃ name,
    run (getHostedZoneID w d fqdn) =
      ((name, None),
       [FindZoneByFqdnCall fqdn;
        PrivateZonesGetCall (recordSetsClient d) (ResourceGroup (config d))
                            (UnFqdn authZone)])
    ∧ name = to_String (ZoneName zone)
    ∧ hasTrailingDot name = hasTrailingDot (to_String (ZoneName zone)).
Proof.
  intros Hno Hwalk Hread. exists (to_String (ZoneName zone)).
  split; [| done].
  destruct (getHostedZoneID_cases w d fqdn)
    as [[Hov _]|[(_ & e & Hw & _)|[(_ & az & e & Hw & Hr & _)|(_ & az & z & Hw & Hr & H)]]];
    [done | congruence | congruence |].
  rewrite Hwalk in Hw. simplify_eq. rewrite Hread in Hr. by simplify_eq.
Qed.

Lemma zone_name_verbatim_witness :
  ∃ name,
    run (getHostedZoneID dottedWorld testProvider "_acme-challenge.www.example.com.")
    = ((name, None),
       [FindZoneByFqdnCall "_acme-challenge.www.example.com.";
        PrivateZonesGetCall (recordSetsClient testProvider) "rg-1" "example.com"])
    ∧ name = "example.com."
    ∧ hasTrailingDot name = true.
Proof.
  exact (zone_name_verbatim dottedWorld testProvider
           "_acme-challenge.www.example.com." "example.com."
           (mkPrivateZone (Some "example.com."))
           eq_refl eq_refl eq_refl).
Defined.

(** ** Retraction *)




(** ** Reconciliation *)

Section Reconciliation.

Context (w : World) (d : dnsProviderPrivate) (domain token keyAuth : string).

Abbreviation info := (GetChallengeInfo w domain keyAuth).
Abbreviation rsc := (recordSetsClient d).
Abbreviation rg := (ResourceGroup (config d)).

(** Every way through [Present]; the merge never panics. *)
Lemma Present_cases :
  ∃ zone r tz,
    run (getHostedZoneID w d (EffectiveFQDN info)) = ((zone, r), tz) ∧
    match r with
    | Some e =>
        run (Present w d domain token keyAuth) = (Returns (Some (Errorf_azure e)), tz)
    | None =>
        match ExtractSubDomain (EffectiveFQDN info) zone with
        | Fail e =>
            run (Present w d domain token keyAuth)
            = (Returns (Some (Errorf_azure e)), tz)
        | Ok subDomain =>
            match fetched (RecordSets_Get w rsc rg zone TXT subDomain) with
            | None =>
                ∃ e, RecordSets_Get w rsc rg zone TXT subDomain = Fail e
                     ∧ fetchFatal e = true
                     ∧ run (Present w d domain token keyAuth)
                       = (Returns (Some (Errorf_azure e)),
                          tz ++ [RecordSetsGetCall rsc rg zone TXT subDomain])
            | Some rset =>
                ∃ uniq, uniqRecords info rset = Some uniq ∧
                  let rec := newRecordSet d subDomain (txtRecords w uniq) in
                  run (Present w d domain token keyAuth)
                  = (Returns (Errorf_azure <$> failure
                       (RecordSets_CreateOrUpdate w rsc rg zone TXT subDomain rec "" "")),
                     tz ++ [RecordSetsGetCall rsc rg zone TXT subDomain;
                            RecordSetsCreateOrUpdateCall rsc rg zone TXT subDomain
                                                         rec "" ""])
            end
        end
    end.
Proof.
  destruct (run (getHostedZoneID w d (EffectiveFQDN info))) as [[zone r] tz] eqn:Hzone.
  exists zone, r, tz. split; [done |].
  destruct r as [e|]; [by eapply Present_zone_error |].
  destruct (ExtractSubDomain (EffectiveFQDN info) zone) as [subDomain|e] eqn:Hsub;
    [| by eapply Present_extract_error].
  destruct (fetched (RecordSets_Get w rsc rg zone TXT subDomain)) as [rset|] eqn:Hget.
  - destruct (uniqRecords_dom info rset) as (uniq & Huniq & _).
    exists uniq. split; [done |]. by eapply Present_write.
  - unfold fetched in Hget.
    destruct (RecordSets_Get w rsc rg zone TXT subDomain) as [|e] eqn:Hfetch; [done |].
    destruct (fetchFatal e) eqn:Hfatal; [| done].
    exists e. split_and!; [done | done |]. by eapply Present_fetch_error.
Qed.

End Reconciliation.

Section Written.

Context (w : World) (d : dnsProviderPrivate) (domain token keyAuth : string).

Abbreviation info := (GetChallengeInfo w domain keyAuth).
Abbreviation rsc := (recordSetsClient d).
Abbreviation rg := (ResourceGroup (config d)).

Context (zone : string) (tz : Trace) (subDomain : string).
Hypothesis Hzone :
  run (getHostedZoneID w d (EffectiveFQDN info)) = ((zone, None), tz).
Hypothesis Hsub : ExtractSubDomain (EffectiveFQDN info) zone = Ok subDomain.

(** What [Present] writes once the read has left [rset] to merge into: one
    record set, whose strings are, without repetition, the challenge value
    and the first strings of the records of [rset]. *)
Lemma Present_writes_merge rset :
  fetched (RecordSets_Get w rsc rg zone TXT subDomain) = Some rset →
  ∃ rec,
    run (Present w d domain token keyAuth) =
      (Returns (Errorf_azure <$> failure
         (RecordSets_CreateOrUpdate w rsc rg zone TXT subDomain rec "" "")),
       tz ++ [RecordSetsGetCall rsc rg zone TXT subDomain;
              RecordSetsCreateOrUpdateCall rsc rg zone TXT subDomain rec "" ""])
    ∧ NoDup (recordValues rec)
    ∧ ∀ x, x ∈ recordValues rec ↔
           x = ChallengeValue info ∨ x ∈ firstValues (existingRecords rset).
Proof.
  intros Hget. destruct (uniqRecords_dom info rset) as (uniq & Huniq & Hdom).
  exists (newRecordSet d subDomain (txtRecords w uniq)). split_and!.
  - by eapply Present_write.
  - apply newRecordSet_NoDup.
  - intros x. rewrite newRecordSet_elem, Hdom. set_solver.
Qed.

End Written.

Lemma written_app tr1 tr2 : written (tr1 ++ tr2) = written tr1 ++ written tr2.
Proof. apply omap_app. Qed.

Lemma written_zone_calls tz :
  Forall (λ c, isRecordCall c = false) tz → written tz = [].
Proof.
  induction 1 as [|c tz Hc _ IH]; [done |].
  change (written (c :: tz)) with (written ([c] ++ tz)).
  rewrite written_app, IH. by destruct c.
Qed.

(** In a trace ending with the read and the write, the written record sets
    are the one of the write. *)
Lemma written_after_resolution w d fqdn r tz (c : Call) rsc rg zone rt name rec im inm :
  run (getHostedZoneID w d fqdn) = (r, tz) →
  endpoint c ≠ RecordWrite →
  written (tz ++ [c; RecordSetsCreateOrUpdateCall rsc rg zone rt name rec im inm])
  = [rec].
Proof.
  intros Hrun Hc. apply getHostedZoneID_trace in Hrun as Hno.
  rewrite written_app, (written_zone_calls tz Hno). by destruct c.
Qed.

(** The records [Present] emits are single-valued: their first strings are
    all their strings. *)
Lemma firstValues_newRecordSet w d subDomain uniq :
  firstValues (existingRecords (newRecordSet d subDomain (txtRecords w uniq)))
  = recordValues (newRecordSet d subDomain (txtRecords w uniq)).
Proof.
  rewrite recordValues_newRecordSet.
  unfold firstValues, existingRecords, newRecordSet, txtRecords. simpl.
  generalize (range_keys (map_range w) uniq). intros keys.
  induction keys as [|k ks IH]; [done |].
  csimpl. by f_equal.
Qed.



(** C1: when the record set read at the name holds, in either order, two
    single-valued TXT records with the values [a] and [b], [Present] with
    the challenge value [c] hands the write endpoint one record set whose
    values, as a set, are exactly [{a, b, c}], none repeated, whatever the
    order in which the map of values is iterated. *)
Theorem merge_two_existing w d domain token keyAuth zone tz subDomain rset a b :
  run (getHostedZoneID w d (EffectiveFQDN (GetChallengeInfo w domain keyAuth)))
    = ((zone, None), tz) →
  ExtractSubDomain (EffectiveFQDN (GetChallengeInfo w domain keyAuth)) zone
    = Ok subDomain →
  RecordSets_Get w (recordSetsClient d) (ResourceGroup (config d)) zone TXT subDomain
    = Ok rset →
  existingRecords rset ≡ₚ [txt [a]; txt [b]] →
  ∃ rec,
    written (run (Present w d domain token keyAuth)).2 = [rec]
    ∧ list_to_set (recordValues rec)
      =@{gset string} {[a; b; ChallengeValue (GetChallengeInfo w domain keyAuth)]}
    ∧ NoDup (recordValues rec).
Proof.
  intros Hzone Hsub Hget Hperm.
  destruct (Present_writes_merge w d domain token keyAuth zone tz subDomain
              Hzone Hsub rset) as (rec & Hrun & Hnd & Hel).
  { by rewrite Hget. }
  exists rec. rewrite Hrun. split_and!; last done.
  - by eapply written_after_resolution.
  - assert (firstValues (existingRecords rset) ≡ₚ [a; b]) as Hfirst.
    { unfold firstValues. by rewrite Hperm. }
    apply set_eq. intros x. rewrite elem_of_list_to_set, Hel, Hfirst. set_solver.
Qed.

Lemma merge_two_existing_witness :
  ∃ rec,
    written (run (Present twoValuesWorld testProvider "www.example.com" "token" "c")).2
    = [rec]
    ∧ list_to_set (recordValues rec) =@{gset string} {["a"; "b"; "c"]}
    ∧ NoDup (recordValues rec).
Proof.
  apply (merge_two_existing twoValuesWorld testProvider "www.example.com" "token" "c"
           "example.com" walkedTrace "_acme-challenge.www"
           (stored "_acme-challenge.www" [txt ["b"]; txt ["a"]]) "a" "b").
  - reflexivity.
  - reflexivity.
  - reflexivity.
  - apply Permutation_swap.
Defined.

(** C2: after a call of [Present] that succeeded, a second call with the
    same arguments, whose read now returns the record set the first call
    wrote, writes a record set with the same values as the first, each
    once: the challenge value is in it and is not duplicated. The order in
    which the second call iterates its map is arbitrary. *)
Theorem present_idempotent w d domain token keyAuth order tr1 :
  run (Present w d domain token keyAuth) = (Returns None, tr1) →
  ∃ rec1 rec2,
    written tr1 = [rec1]
    ∧ written (run (Present (refetch w order rec1) d domain token keyAuth)).2 = [rec2]
    ∧ recordValues rec2 ≡ₚ recordValues rec1
    ∧ NoDup (recordValues rec2)
    ∧ ChallengeValue (GetChallengeInfo w domain keyAuth) ∈ recordValues rec2.
Proof.
  intros Hrun.
  destruct (Present_cases w d domain token keyAuth) as (zone & r & tz & Hzone & Hcase).
  destruct r as [e|]; [congruence |].
  destruct (ExtractSubDomain _ zone) as [subDomain|e] eqn:Hsub; [| congruence].
  destruct (fetched _) as [rset|] eqn:Hget;
    [| destruct Hcase as (e & _ & _ & Hcase); congruence].
  destruct Hcase as (uniq & Huniq & Hrun1). cbv zeta in Hrun1.
  rewrite Hrun1 in Hrun. injection Hrun as _ <-.
  destruct (uniqRecords_dom (GetChallengeInfo w domain keyAuth) rset)
    as (uniq' & Huniq' & Hdom).
  rewrite Huniq in Huniq'. injection Huniq' as <-.
  pose proof (firstValues_newRecordSet w d subDomain uniq) as Hfirst.
  set (rec1 := newRecordSet d subDomain (txtRecords w uniq)) in *.
  assert (∀ x, x ∈ recordValues rec1 ↔ x ∈ dom uniq) as Hel1
    by (intros x; apply newRecordSet_elem).
  destruct (Present_writes_merge (refetch w order rec1) d domain token keyAuth
              zone tz subDomain Hzone Hsub rec1 eq_refl) as (rec2 & Hrun2 & Hnd2 & Hel2).
  assert (∀ x, x ∈ recordValues rec2 ↔ x ∈ recordValues rec1) as Hsame.
  { intros x. rewrite Hel2, Hfirst, !Hel1, Hdom. simpl. set_solver. }
  exists rec1, rec2. split_and!.
  - by eapply written_after_resolution.
  - rewrite Hrun2. by eapply (written_after_resolution (refetch w order rec1)).
  - apply NoDup_Permutation; [done | apply newRecordSet_NoDup | done].
  - done.
  - apply Hel2. by left.
Qed.

Lemma present_idempotent_witness :
  ∃ rec1 rec2,
    written (run (Present twoValuesWorld testProvider "www.example.com" "token" "c")).2
    = [rec1]
    ∧ written (run (Present (refetch twoValuesWorld rangeForward rec1) testProvider
                            "www.example.com" "token" "c")).2 = [rec2]
    ∧ recordValues rec2 ≡ₚ recordValues rec1
    ∧ NoDup (recordValues rec2)
    ∧ "c" ∈ recordValues rec2.
Proof.
  apply (present_idempotent twoValuesWorld testProvider "www.example.com" "token" "c"
           rangeForward). reflexivity.
Defined.



(** C5: of every existing TXT record only the first string enters the
    merge. The strings of the written record set are exactly the challenge
    value and the first strings of the existing records; a string that
    comes after the first in a record is not written, unless it is the
    challenge value or the first string of some record. *)
Theorem merge_keeps_first_string_only w d domain token keyAuth zone tz subDomain rset :
  run (getHostedZoneID w d (EffectiveFQDN (GetChallengeInfo w domain keyAuth)))
    = ((zone, None), tz) →
  ExtractSubDomain (EffectiveFQDN (GetChallengeInfo w domain keyAuth)) zone
    = Ok subDomain →
  RecordSets_Get w (recordSetsClient d) (ResourceGroup (config d)) zone TXT subDomain
    = Ok rset →
  ∃ rec,
    written (run (Present w d domain token keyAuth)).2 = [rec]
    ∧ (∀ x, x ∈ recordValues rec ↔
            x = ChallengeValue (GetChallengeInfo w domain keyAuth)
            ∨ ∃ r rest, r ∈ existingRecords rset ∧ Value r = Some (x :: rest))
    ∧ (∀ r v0 rest s,
         r ∈ existingRecords rset → Value r = Some (v0 :: rest) → s ∈ rest →
         s ≠ ChallengeValue (GetChallengeInfo w domain keyAuth) →
         s ∉ firstValues (existingRecords rset) →
         s ∉ recordValues rec).
Proof.
  intros Hzone Hsub Hget.
  destruct (Present_writes_merge w d domain token keyAuth zone tz subDomain
              Hzone Hsub rset) as (rec & Hrun & Hnd & Hel).
  { by rewrite Hget. }
  exists rec. rewrite Hrun. split_and!.
  - by eapply written_after_resolution.
  - intros x. by rewrite Hel, elem_of_firstValues.
  - intros r v0 rest s _ _ _ Hc Hfirst [?|?]%Hel; done.
Qed.

Lemma merge_keeps_first_string_only_witness :
  ∃ rec,
    written (run (Present multiStringWorld testProvider "www.example.com" "token" "c")).2
    = [rec]
    ∧ (∀ x, x ∈ recordValues rec ↔
            x = "c"
            ∨ ∃ r rest, r ∈ [txt ["a"; "tail"]; mkTxtRecord None; txt []]
                        ∧ Value r = Some (x :: rest))
    ∧ (∀ r v0 rest s,
         r ∈ [txt ["a"; "tail"]; mkTxtRecord None; txt []] →
         Value r = Some (v0 :: rest) → s ∈ rest → s ≠ "c" →
         s ∉ ["a"] → s ∉ recordValues rec).
Proof.
  exact (merge_keeps_first_string_only multiStringWorld testProvider "www.example.com"
           "token" "c" "example.com" walkedTrace "_acme-challenge.www"
           (stored "_acme-challenge.www" [txt ["a"; "tail"]; mkTxtRecord None; txt []])
           eq_refl eq_refl eq_refl).
Defined.

(** What [Present] wrote, for every way through it: nothing, or one record
    set built from a map that holds the challenge value. *)
Lemma Present_written w d domain token keyAuth :
  (run (Present w d domain token keyAuth)).1 ≠ Panics
  ∧ (written (run (Present w d domain token keyAuth)).2 = []
     ∨ ∃ subDomain uniq,
         written (run (Present w d domain token keyAuth)).2
         = [newRecordSet d subDomain (txtRecords w uniq)]
         ∧ ChallengeValue (GetChallengeInfo w domain keyAuth) ∈ dom uniq).
Proof.
  destruct (Present_cases w d domain token keyAuth) as (zone & r & tz & Hzone & Hcase).
  pose proof (getHostedZoneID_trace w d _ _ _ Hzone) as Hno.
  destruct r as [e|].
  { rewrite Hcase. split; [done |]. left. by apply written_zone_calls. }
  destruct (ExtractSubDomain _ zone) as [subDomain|e] eqn:Hsub.
  2: { rewrite Hcase. split; [done |]. left. by apply written_zone_calls. }
  destruct (fetched _) as [rset|] eqn:Hget.
  - destruct Hcase as (uniq & Huniq & Hrun). cbv zeta in Hrun. rewrite Hrun.
    split; [done |]. right. exists subDomain, uniq. split.
    + by eapply written_after_resolution.
    + destruct (uniqRecords_dom (GetChallengeInfo w domain keyAuth) rset)
        as (uniq' & Huniq' & Hdom).
      rewrite Huniq in Huniq'. injection Huniq' as <-. rewrite Hdom. set_solver.
  - destruct Hcase as (e & _ & _ & Hrun). rewrite Hrun. split; [done |]. left.
    simpl. by rewrite written_app, written_zone_calls.
Qed.

(** C10: the merge skips, without a panic and without adding a value, a
    record set whose properties are absent, properties whose TXT record
    list is absent, and a record whose value list is nil or empty; the merge
    always yields a map that holds the challenge value. So [Present] never
    panics, and every record set it hands to the write endpoint holds the
    challenge value in a non-empty list of TXT records. *)
Theorem merge_skips_absent_values :
  (∀ info name,
     uniqRecords info (mkRecordSet name None) = Some {[ChallengeValue info := tt]})
  ∧ (∀ info name ttl,
       uniqRecords info (mkRecordSet name (Some (mkRecordSetProperties ttl None)))
       = Some {[ChallengeValue info := tt]})
  ∧ (∀ uniq, addRecord uniq (mkTxtRecord None) = Some uniq)
  ∧ (∀ uniq, addRecord uniq (mkTxtRecord (Some [])) = Some uniq)
  ∧ (∀ info rset, ∃ uniq,
       uniqRecords info rset = Some uniq ∧ uniq !! ChallengeValue info = Some tt)
  ∧ (∀ w d domain token keyAuth,
       (run (Present w d domain token keyAuth)).1 ≠ Panics
       ∧ ∀ rec, rec ∈ written (run (Present w d domain token keyAuth)).2 →
           ChallengeValue (GetChallengeInfo w domain keyAuth) ∈ recordValues rec
           ∧ recordValues rec ≠ []
           ∧ ∃ records, Properties rec ≫= TxtRecords = Some records ∧ records ≠ []).
Proof.
  split_and!; try done.
  - intros info rset. destruct (uniqRecords_dom info rset) as (uniq & Huniq & Hdom).
    exists uniq. split; [done |].
    assert (ChallengeValue info ∈ dom uniq) as [[] Hin]%elem_of_dom; [| done].
    rewrite Hdom. set_solver.
  - intros w d domain token keyAuth.
    destruct (Present_written w d domain token keyAuth)
      as [Hpanic [Hnone|(subDomain & uniq & Hone & Hin)]]; (split; [done |]).
    + rewrite Hnone. by intros rec ?%elem_of_nil.
    + rewrite Hone. intros rec ->%list_elem_of_singleton.
      apply (newRecordSet_elem w d subDomain) in Hin.
      split_and!; [done | by intros Heq; rewrite Heq in Hin; apply elem_of_nil in Hin |].
      eexists. split; [reflexivity |]. intros Heq.
      rewrite recordValues_newRecordSet in Hin. unfold txtRecords in Heq.
      apply fmap_nil_inv in Heq. rewrite Heq in Hin. by apply elem_of_nil in Hin.
Qed.

Lemma merge_skips_absent_values_witness :
  "c" ∈ recordValues (stored "_acme-challenge.www" [txt ["c"]; txt ["a"]])
  ∧ recordValues (stored "_acme-challenge.www" [txt ["c"]; txt ["a"]]) ≠ []
  ∧ ∃ records,
      Properties (stored "_acme-challenge.www" [txt ["c"]; txt ["a"]]) ≫= TxtRecords
      = Some records ∧ records ≠ [].
Proof.
  apply (proj2 (proj2 (proj2 (proj2 (proj2 (proj2 merge_skips_absent_values))))
                  multiStringWorld testProvider "www.example.com" "token" "c")).
  vm_compute. apply list_elem_of_here.
Defined.

(** ** Errors *)

(** C8: when the resolved zone, stripped from the effective FQDN, leaves an
    empty relative name, or the FQDN does not extend the zone at all, both
    [Present] and [CleanUp] return an error wrapped under the prefix, and
    their traces hold the calls of the zone resolution only: no record is
    read, written or deleted. *)
Theorem empty_subdomain_is_an_error w d domain token keyAuth zone tz :
  run (getHostedZoneID w d (EffectiveFQDN (GetChallengeInfo w domain keyAuth)))
    = ((zone, None), tz) →
  strip_zone (EffectiveFQDN (GetChallengeInfo w domain keyAuth)) zone = None
  ∨ strip_zone (EffectiveFQDN (GetChallengeInfo w domain keyAuth)) zone = Some "" →
  ∃ e,
    run (Present w d domain token keyAuth) = (Returns (Some (Errorf_azure e)), tz)
    ∧ run (CleanUp w d domain token keyAuth) = (Some (Errorf_azure e), tz)
    ∧ Forall (λ c, isRecordCall c = false) tz.
Proof.
  intros Hzone Hstrip.
  assert (∃ e, ExtractSubDomain
                 (EffectiveFQDN (GetChallengeInfo w domain keyAuth)) zone = Fail e)
    as [e He].
  { unfold ExtractSubDomain. destruct Hstrip as [-> | ->]; eauto. }
  exists e. split_and!.
  - by eapply Present_extract_error.
  - by eapply CleanUp_extract_error.
  - by eapply getHostedZoneID_trace.
Qed.

Lemma empty_subdomain_is_an_error_witness :
  ∃ e,
    run (Present overrideWorld testProvider "www.example.com" "token" "c")
    = (Returns (Some (Errorf_azure e)), [])
    ∧ run (CleanUp overrideWorld testProvider "www.example.com" "token" "c")
      = (Some (Errorf_azure e), [])
    ∧ Forall (λ c, isRecordCall c = false) [].
Proof.
  apply (empty_subdomain_is_an_error overrideWorld testProvider "www.example.com"
           "token" "c" "corp.internal" []).
  - reflexivity.
  - left. reflexivity.
Defined.

(** After the zone resolution, the record endpoints are new to the trace. *)
Lemma NoDup_endpoints_after w d fqdn r tz (calls : list Call) :
  run (getHostedZoneID w d fqdn) = (r, tz) →
  NoDup (endpoint <$> calls) →
  Forall (λ c, isRecordCall c = true) calls →
  NoDup (endpoint <$> (tz ++ calls)).
Proof.
  intros Hrun Hnd Hrec. rewrite fmap_app. apply NoDup_app. split_and!; last done.
  - destruct (getHostedZoneID_endpoints _ _ _ _ _ Hrun) as [-> | [-> | ->]]; compute_done.
  - intros ep Hzone (c & -> & Hc)%list_elem_of_fmap.
    rewrite Forall_forall in Hrec. specialize (Hrec c Hc).
    destruct (getHostedZoneID_endpoints _ _ _ _ _ Hrun) as [Heq|[Heq|Heq]];
      rewrite Heq in Hzone; unfold isRecordCall in Hrec;
      destruct (endpoint c); set_solver.
Qed.

Lemma stoppedAt_call w fqdn e tr' c :
  callError w c = Some e →
  NoDup (endpoint <$> (tr' ++ [c])) →
  stoppedAt w fqdn (Errorf_azure e) (tr' ++ [c]).
Proof. intros Hc Hnd. exists e. split_and!; eauto. Qed.

(** C9: whenever [Present] or [CleanUp] returns an error, the error is the
    error of the step that failed (zone resolution, subdomain extraction,
    record read, record write or record delete) wrapped under the prefix
    ["azure: "], and the call returned at that step: the failed outbound
    call is the last of the trace (after a failed extraction no record
    endpoint is reached), and no endpoint is called a second time. *)
Theorem errors_are_wrapped_and_final w d domain token keyAuth :
  (∀ err tr,
     run (Present w d domain token keyAuth) = (Returns (Some err), tr) →
     stoppedAt w (EffectiveFQDN (GetChallengeInfo w domain keyAuth)) err tr)
  ∧ (∀ err tr,
       run (CleanUp w d domain token keyAuth) = (Some err, tr) →
       stoppedAt w (EffectiveFQDN (GetChallengeInfo w domain keyAuth)) err tr).
Proof.
  set (fqdn := EffectiveFQDN (GetChallengeInfo w domain keyAuth)).
  destruct (run (getHostedZoneID w d fqdn)) as [[zone r] tz] eqn:Hzone.
  pose proof (getHostedZoneID_trace w d _ _ _ Hzone) as Hno.
  assert (NoDup (endpoint <$> tz)) as Hndz.
  { rewrite <-(app_nil_r tz). by eapply NoDup_endpoints_after; [| constructor |]. }
  assert (∀ e, r = Some e → stoppedAt w fqdn (Errorf_azure e) tz) as Hzerr.
  { intros e ->. destruct (getHostedZoneID_failure w d _ _ _ _ Hzone)
      as (tz' & c & -> & Hc). by apply stoppedAt_call. }
  assert (∀ e, ExtractSubDomain fqdn zone = Fail e →
               stoppedAt w fqdn (Errorf_azure e) tz) as Hxerr.
  { intros e He. exists e. split_and!; eauto. }
  split; intros err tr Hrun.
  - destruct (Present_cases w d domain token keyAuth) as (zone' & r' & tz' & Hz & Hcase).
    fold fqdn in Hz, Hcase. rewrite Hzone in Hz. simplify_eq.
    destruct r' as [e|]; [rewrite Hcase in Hrun; simplify_eq; by apply Hzerr |].
    destruct (ExtractSubDomain fqdn zone') as [subDomain|e] eqn:Hsub;
      [| rewrite Hcase in Hrun; simplify_eq; by apply Hxerr].
    destruct (fetched _) as [rset|] eqn:Hget.
    + destruct Hcase as (uniq & _ & Hcase). cbv zeta in Hcase.
      rewrite Hcase in Hrun.
      destruct (RecordSets_CreateOrUpdate _ _ _ _ _ _ _ _ _) as [|e] eqn:Hwrite;
        simplify_eq/=.
      change [?a; ?b] with ([a] ++ [b]). rewrite app_assoc.
      apply stoppedAt_call; [simpl; by rewrite Hwrite |].
      rewrite <-app_assoc. eapply NoDup_endpoints_after; [done | | by repeat constructor].
      compute_done.
    + destruct Hcase as (e & Hfetch & _ & Hcase). rewrite Hcase in Hrun. simplify_eq.
      apply stoppedAt_call; [simpl; by rewrite Hfetch |].
      eapply NoDup_endpoints_after; [done | | by repeat constructor]. compute_done.
  - destruct r as [e|].
    { rewrite (CleanUp_zone_error w d _ _ _ _ _ _ Hzone) in Hrun. simplify_eq.
      by apply Hzerr. }
    destruct (ExtractSubDomain fqdn zone) as [subDomain|e] eqn:Hsub.
    2: { rewrite (CleanUp_extract_error w d _ _ _ _ _ Hzone _ Hsub) in Hrun.
         simplify_eq. by apply Hxerr. }
    rewrite (CleanUp_delete w d _ _ _ _ _ Hzone _ Hsub) in Hrun.
    destruct (RecordSets_Delete _ _ _ _ _ _ _) as [|e] eqn:Hdel; simplify_eq/=.
    apply stoppedAt_call; [simpl; by rewrite Hdel |].
    eapply NoDup_endpoints_after; [done | | by repeat constructor]. compute_done.
Qed.

Lemma errors_are_wrapped_and_final_witness :
  stoppedAt forbiddenWorld "_acme-challenge.www.example.com."
    (Errorf_azure forbidden)
    (walkedTrace ++
     [RecordSetsGetCall (recordSetsClient testProvider) "rg-1" "example.com" TXT
                        "_acme-challenge.www"])
  ∧ stoppedAt strictDeleteWorld "_acme-challenge.www.example.com."
      (Errorf_azure notFound)
      (walkedTrace ++
       [RecordSetsDeleteCall (recordSetsClient testProvider) "rg-1" "example.com" TXT
                             "_acme-challenge.www" ""]).
Proof.
  split.
  - apply (proj1 (errors_are_wrapped_and_final forbiddenWorld testProvider
                    "www.example.com" "token" "c")). reflexivity.
  - apply (proj2 (errors_are_wrapped_and_final strictDeleteWorld testProvider
                    "www.example.com" "token" "c")). reflexivity.
Defined.

(** * Further properties of the provider *)

(** ** Traces *)

(** Every way through [CleanUp]. *)
Lemma CleanUp_cases w d domain token keyAuth :
  ∃ zone r tz,
    run (getHostedZoneID w d (EffectiveFQDN (GetChallengeInfo w domain keyAuth)))
      = ((zone, r), tz) ∧
    match r with
    | Some e => run (CleanUp w d domain token keyAuth) = (Some (Errorf_azure e), tz)
    | None =>
        match ExtractSubDomain (EffectiveFQDN (GetChallengeInfo w domain keyAuth)) zone with
        | Fail e => run (CleanUp w d domain token keyAuth) = (Some (Errorf_azure e), tz)
        | Ok subDomain =>
            run (CleanUp w d domain token keyAuth) =
              (Errorf_azure <$> failure
                 (RecordSets_Delete w (recordSetsClient d) (ResourceGroup (config d))
                                    zone TXT subDomain ""),
               tz ++ [RecordSetsDeleteCall (recordSetsClient d) (ResourceGroup (config d))
                                           zone TXT subDomain ""])
        end
    end.
Proof.
  destruct (run (getHostedZoneID w d _)) as [[zone r] tz] eqn:Hzone.
  exists zone, r, tz. split; [done |].
  destruct r as [e|]; [by eapply CleanUp_zone_error |].
  destruct (ExtractSubDomain _ zone) as [subDomain|e] eqn:Hsub.
  - by eapply CleanUp_delete.
  - by eapply CleanUp_extract_error.
Qed.

(** The calls of a zone resolution, with their arguments. *)
Lemma getHostedZoneID_calls w d fqdn r tz :
  run (getHostedZoneID w d fqdn) = (r, tz) →
  (GetOrFile w EnvZoneName ≠ "" ∧ tz = [])
  ∨ (GetOrFile w EnvZoneName = "" ∧
     (tz = [FindZoneByFqdnCall fqdn]
      ∨ ∃ zoneName,
          tz = [FindZoneByFqdnCall fqdn;
                PrivateZonesGetCall (recordSetsClient d) (ResourceGroup (config d))
                                    zoneName])).
Proof.
  intros Hrun.
  destruct (getHostedZoneID_cases w d fqdn)
    as [[Hov H]|[(Hno & ? & ? & H)|[(Hno & ? & ? & ? & ? & H)|(Hno & ? & ? & ? & ? & H)]]];
    rewrite H in Hrun; simplify_eq; eauto 6.
Qed.

(** The trace of [Present]: the zone resolution, then nothing, or the
    read, or the read and the write, both at the resolved zone and the
    extracted name. *)
Lemma Present_trace w d domain token keyAuth :
  ∃ zone r tz,
    run (getHostedZoneID w d (EffectiveFQDN (GetChallengeInfo w domain keyAuth)))
      = ((zone, r), tz) ∧
    ((run (Present w d domain token keyAuth)).2 = tz
     ∨ ∃ subDomain,
         r = None
         ∧ ExtractSubDomain (EffectiveFQDN (GetChallengeInfo w domain keyAuth)) zone
           = Ok subDomain
         ∧ ((run (Present w d domain token keyAuth)).2 =
              tz ++ [RecordSetsGetCall (recordSetsClient d) (ResourceGroup (config d))
                                       zone TXT subDomain]
            ∨ ∃ uniq,
                (run (Present w d domain token keyAuth)).2 =
                  tz ++ [RecordSetsGetCall (recordSetsClient d)
                           (ResourceGroup (config d)) zone TXT subDomain;
                         RecordSetsCreateOrUpdateCall (recordSetsClient d)
                           (ResourceGroup (config d)) zone TXT subDomain
                           (newRecordSet d subDomain (txtRecords w uniq)) "" ""])).
Proof.
  destruct (Present_cases w d domain token keyAuth) as (zone & r & tz & Hzone & Hcase).
  exists zone, r, tz. split; [done |].
  destruct r as [e|]; [left; by rewrite Hcase |].
  destruct (ExtractSubDomain _ zone) as [subDomain|e] eqn:Hsub;
    [| left; by rewrite Hcase].
  right. exists subDomain. split_and!; [done.. |].
  destruct (fetched _) as [rset|].
  - destruct Hcase as (uniq & _ & Hrun). cbv zeta in Hrun. right. exists uniq.
    by rewrite Hrun.
  - destruct Hcase as (e & _ & _ & Hrun). left. by rewrite Hrun.
Qed.

(** The trace of [CleanUp]: the zone resolution, then nothing or the
    delete. *)
Lemma CleanUp_trace w d domain token keyAuth :
  ∃ zone r tz,
    run (getHostedZoneID w d (EffectiveFQDN (GetChallengeInfo w domain keyAuth)))
      = ((zone, r), tz) ∧
    ((run (CleanUp w d domain token keyAuth)).2 = tz
     ∨ ∃ subDomain,
         r = None
         ∧ ExtractSubDomain (EffectiveFQDN (GetChallengeInfo w domain keyAuth)) zone
           = Ok subDomain
         ∧ (run (CleanUp w d domain token keyAuth)).2 =
             tz ++ [RecordSetsDeleteCall (recordSetsClient d) (ResourceGroup (config d))
                                         zone TXT subDomain ""]).
Proof.
  destruct (CleanUp_cases w d domain token keyAuth) as (zone & r & tz & Hzone & Hcase).
  exists zone, r, tz. split; [done |].
  destruct r as [e|]; [left; by rewrite Hcase |].
  destruct (ExtractSubDomain _ zone) as [subDomain|e] eqn:Hsub;
    [| left; by rewrite Hcase].
  right. exists subDomain. by rewrite Hcase.
Qed.

(** Unfold the trace of a run of [Present] or [CleanUp] into its calls. *)
Ltac trace_cases w d domain token keyAuth :=
  let Hzone := fresh "Hzone" in
  let Hcalls := fresh "Hcalls" in
  (destruct (Present_trace w d domain token keyAuth)
     as (? & ? & ? & Hzone & [-> | (? & ? & ? & [-> | (? & ->)])]);
   destruct (CleanUp_trace w d domain token keyAuth)
     as (? & ? & ? & Hzone' & [-> | (? & ? & ? & ->)]);
   rewrite Hzone in Hzone'; simplify_eq;
   pose proof (getHostedZoneID_calls w d _ _ _ Hzone) as Hcalls).

(** X2: [Present] never calls the delete endpoint, and [CleanUp] never
    calls the record read or the record write endpoint. *)
Theorem endpoints_never_used w d domain token keyAuth :
  Forall (λ c, endpoint c ≠ RecordDelete) (run (Present w d domain token keyAuth)).2
  ∧ Forall (λ c, endpoint c ≠ RecordRead ∧ endpoint c ≠ RecordWrite)
           (run (CleanUp w d domain token keyAuth)).2.
Proof.
  trace_cases w d domain token keyAuth;
    destruct Hcalls as [[_ ->] | [_ [-> | [? ->]]]]; simpl;
    split; by repeat constructor.
Qed.



(** X7: every call that [Present] or [CleanUp] makes to the management API
    goes through the client built from the configured endpoint and
    subscription with the provider's authorizer, and names the configured
    resource group. *)
Theorem calls_use_configuration w d domain token keyAuth :
  let configured c :=
    ∀ target, apiTarget c = Some target →
      target = (mkClient (ResourceManagerEndpoint (config d))
                         (SubscriptionID (config d)) (authorizer d),
                ResourceGroup (config d)) in
  Forall configured (run (Present w d domain token keyAuth)).2
  ∧ Forall configured (run (CleanUp w d domain token keyAuth)).2.
Proof.
  intros configured.
  trace_cases w d domain token keyAuth;
    destruct Hcalls as [[_ ->] | [_ [-> | [? ->]]]]; simpl;
    split; repeat constructor; intros target Htarget; by simplify_eq/=.
Qed.

Lemma calls_use_configuration_witness :
  Forall (λ c, ∀ target, apiTarget c = Some target →
                 target = (mkClient "https://management.azure.com" "sub-1"
                                    (Some (mkAuthorizer "token")), "rg-1"))
         (run (Present twoValuesWorld testProvider "www.example.com" "token" "c")).2.
Proof.
  exact (proj1 (calls_use_configuration twoValuesWorld testProvider
                  "www.example.com" "token" "c")).
Defined.

(** With an override, the resolution is the override and calls nothing. *)
Lemma getHostedZoneID_override w d fqdn r tz :
  GetOrFile w EnvZoneName ≠ "" →
  run (getHostedZoneID w d fqdn) = (r, tz) →
  r = (GetOrFile w EnvZoneName, None) ∧ tz = [].
Proof.
  intros Hov Hrun.
  destruct (getHostedZoneID_cases w d fqdn)
    as [[_ H]|[(Hno & _)|[(Hno & _)|(Hno & _)]]]; [| done..].
  rewrite H in Hrun. by simplify_eq.
Qed.

(** X10: with a zone override configured, every record call of [Present]
    and of [CleanUp] addresses the override zone, spelled as configured. *)
Theorem override_zone_is_addressed w d domain token keyAuth :
  GetOrFile w EnvZoneName ≠ "" →
  Forall (λ c, callZone c = Some (GetOrFile w EnvZoneName))
         (run (Present w d domain token keyAuth)).2
  ∧ Forall (λ c, callZone c = Some (GetOrFile w EnvZoneName))
           (run (CleanUp w d domain token keyAuth)).2.
Proof.
  intros Hov.
  destruct (Present_trace w d domain token keyAuth)
    as (zone & r & tz & Hzone & Hp).
  destruct (CleanUp_trace w d domain token keyAuth)
    as (zone' & r' & tz' & Hzone' & Hc).
  rewrite Hzone in Hzone'. simplify_eq.
  apply (getHostedZoneID_override w d _ _ _ Hov) in Hzone as [? ->]. simplify_eq.
  split.
  - destruct Hp as [-> | (? & ? & ? & [-> | (? & ->)])]; by repeat constructor.
  - destruct Hc as [-> | (? & ? & ? & ->)]; by repeat constructor.
Qed.

Lemma override_zone_is_addressed_witness :
  Forall (λ c, callZone c = Some "example.com")
         (run (Present overrideAbsentWorld testProvider
                       "www.example.com" "token" "c")).2
  ∧ Forall (λ c, callZone c = Some "example.com")
           (run (CleanUp overrideAbsentWorld testProvider
                         "www.example.com" "token" "c")).2.
Proof.
  apply (override_zone_is_addressed overrideAbsentWorld testProvider
           "www.example.com" "token" "c"). done.
Defined.

(** ** Success *)

Lemma last_call_inv (tz tr' : Trace) (c0 c : Call) :
  tz ++ [c0] = tr' ++ [c] → tz = tr' ∧ c0 = c.
Proof. apply app_inj_tail. Qed.

Lemma zone_trace_last_call w d fqdn r tz tr' c :
  run (getHostedZoneID w d fqdn) = (r, tz) →
  tz = tr' ++ [c] → isRecordCall c = false.
Proof.
  intros Hno%getHostedZoneID_trace ->.
  apply Forall_app in Hno as [_ Hc]. by inversion Hc.
Qed.

(** X1: [Present] returns no error exactly when its last outbound call is
    a record write that succeeded, and [CleanUp] exactly when its last
    outbound call is a record delete that succeeded. *)
Theorem success_is_a_successful_last_call w d domain token keyAuth :
  ((run (Present w d domain token keyAuth)).1 = Returns None ↔
   ∃ tr' c, (run (Present w d domain token keyAuth)).2 = tr' ++ [c]
            ∧ endpoint c = RecordWrite ∧ callError w c = None)
  ∧ ((run (CleanUp w d domain token keyAuth)).1 = None ↔
     ∃ tr' c, (run (CleanUp w d domain token keyAuth)).2 = tr' ++ [c]
              ∧ endpoint c = RecordDelete ∧ callError w c = None).
Proof.
  split.
  - destruct (Present_cases w d domain token keyAuth) as (zone & r & tz & Hzone & Hcase).
    assert (∀ tr' c, tz = tr' ++ [c] → endpoint c ≠ RecordWrite) as Hlast.
    { intros tr' c Heq Hc.
      pose proof (zone_trace_last_call _ _ _ _ _ _ _ Hzone Heq) as Hrec.
      unfold isRecordCall in Hrec. by rewrite Hc in Hrec. }
    destruct r as [e|];
      [rewrite Hcase; split; [done | intros (tr' & c & ? & ? & _); exfalso; by eapply Hlast] |].
    destruct (ExtractSubDomain _ zone) as [subDomain|e];
      [| rewrite Hcase; split; [done | intros (tr' & c & ? & ? & _); exfalso; by eapply Hlast]].
    destruct (fetched _) as [rset|].
    + destruct Hcase as (uniq & _ & Hrun). cbv zeta in Hrun. rewrite Hrun. simpl.
      change [?a; ?b] with ([a] ++ [b]). rewrite app_assoc. split.
      * intros Hok. eexists _, _. split_and!; [done.. |]. simpl.
        by destruct (RecordSets_CreateOrUpdate _ _ _ _ _ _ _ _ _).
      * intros (tr' & c & [_ <-]%last_call_inv & _ & Hok). simpl in Hok.
        by rewrite Hok.
    + destruct Hcase as (e & _ & _ & Hrun). rewrite Hrun. simpl. split; [done |].
      by intros (tr' & c & [_ <-]%last_call_inv & ? & _).
  - destruct (CleanUp_cases w d domain token keyAuth) as (zone & r & tz & Hzone & Hcase).
    assert (∀ tr' c, tz = tr' ++ [c] → endpoint c ≠ RecordDelete) as Hlast.
    { intros tr' c Heq Hc.
      pose proof (zone_trace_last_call _ _ _ _ _ _ _ Hzone Heq) as Hrec.
      unfold isRecordCall in Hrec. by rewrite Hc in Hrec. }
    destruct r as [e|];
      [rewrite Hcase; split; [done | intros (tr' & c & ? & ? & _); exfalso; by eapply Hlast] |].
    destruct (ExtractSubDomain _ zone) as [subDomain|e];
      [| rewrite Hcase; split; [done | intros (tr' & c & ? & ? & _); exfalso; by eapply Hlast]].
    rewrite Hcase. simpl. split.
    + intros Hok. eexists _, _. split_and!; [done.. |]. simpl.
      by destruct (RecordSets_Delete _ _ _ _ _ _ _).
    + intros (tr' & c & [_ <-]%last_call_inv & _ & Hok). simpl in Hok. by rewrite Hok.
Qed.

Lemma success_is_a_successful_last_call_witness :
  ∃ tr' c,
    (run (Present absentWorld testProvider "www.example.com" "token" "c")).2
    = tr' ++ [c]
    ∧ endpoint c = RecordWrite ∧ callError absentWorld c = None.
Proof.
  apply (proj1 (proj1 (success_is_a_successful_last_call absentWorld testProvider
                         "www.example.com" "token" "c"))).
  reflexivity.
Defined.

(** ** The write *)

Lemma int64_inInt64 x : inInt64 x → int64 x = x.
Proof. unfold inInt64, int64. intros Hx. rewrite Z.mod_small; lia. Qed.

(** A write call in the trace of [Present] is its last call, after the
    zone resolution and the read. *)
Lemma Present_write_call_inv w d domain token keyAuth rsc rg zone rt name rec im inm :
  RecordSetsCreateOrUpdateCall rsc rg zone rt name rec im inm
    ∈ (run (Present w d domain token keyAuth)).2 →
  ∃ r tz uniq,
    run (getHostedZoneID w d (EffectiveFQDN (GetChallengeInfo w domain keyAuth)))
      = ((zone, r), tz)
    ∧ r = None
    ∧ ExtractSubDomain (EffectiveFQDN (GetChallengeInfo w domain keyAuth)) zone = Ok name
    ∧ rsc = recordSetsClient d ∧ rg = ResourceGroup (config d)
    ∧ rt = TXT ∧ im = "" ∧ inm = ""
    ∧ rec = newRecordSet d name (txtRecords w uniq)
    ∧ (run (Present w d domain token keyAuth)).2 =
        tz ++ [RecordSetsGetCall rsc rg zone TXT name;
               RecordSetsCreateOrUpdateCall rsc rg zone rt name rec im inm].
Proof.
  intros Hin.
  destruct (Present_trace w d domain token keyAuth)
    as (zone' & r & tz & Hzone & Htrace).
  pose proof (getHostedZoneID_trace _ _ _ _ _ Hzone) as Hno.
  rewrite Forall_forall in Hno.
  destruct Htrace as [Htr | (subDomain & -> & Hsub & [Htr | (uniq & Htr)])];
    rewrite Htr in Hin.
  - by apply Hno in Hin.
  - apply elem_of_app in Hin as [Hin%Hno | Hin%list_elem_of_singleton]; done.
  - apply elem_of_app in Hin as [Hin%Hno | Hin]; [done |].
    apply elem_of_cons in Hin as [? | Hin%list_elem_of_singleton]; [done |].
    injection Hin as -> -> -> -> -> -> -> ->. exists None, tz, uniq. split_and!; done.
Qed.

(** X5: when [Present] writes, the write is its last call and comes right
    after the one read of the same record set; it is a TXT write at the
    same zone and relative name, and it is unconditional (empty [If-Match]
    and [If-None-Match]). *)
Theorem write_follows_read_of_same_record w d domain token keyAuth
    rsc rg zone rt name rec im inm :
  RecordSetsCreateOrUpdateCall rsc rg zone rt name rec im inm
    ∈ (run (Present w d domain token keyAuth)).2 →
  rt = TXT ∧ im = "" ∧ inm = ""
  ∧ ∃ tz,
      Forall (λ c, isRecordCall c = false) tz
      ∧ (run (Present w d domain token keyAuth)).2 =
          tz ++ [RecordSetsGetCall rsc rg zone TXT name;
                 RecordSetsCreateOrUpdateCall rsc rg zone TXT name rec "" ""].
Proof.
  intros (r & tz & uniq & Hzone & _ & _ & _ & _ & -> & -> & -> & _ & Htr)
    %Present_write_call_inv.
  split_and!; [done.. |]. exists tz. split; [| done].
  by eapply getHostedZoneID_trace.
Qed.

Lemma write_follows_read_of_same_record_witness :
  TXT = TXT ∧ "" = "" ∧ "" = ""
  ∧ ∃ tz,
      Forall (λ c, isRecordCall c = false) tz
      ∧ (run (Present absentWorld testProvider "www.example.com" "token" "c")).2 =
          tz ++ [RecordSetsGetCall (recordSetsClient testProvider) "rg-1"
                                   "example.com" TXT "_acme-challenge.www";
                 RecordSetsCreateOrUpdateCall (recordSetsClient testProvider) "rg-1"
                   "example.com" TXT "_acme-challenge.www"
                   (stored "_acme-challenge.www" [txt ["c"]]) "" ""].
Proof.
  apply (write_follows_read_of_same_record absentWorld testProvider
           "www.example.com" "token" "c").
  vm_compute. do 3 apply list_elem_of_further. apply list_elem_of_here.
Defined.

(** X6: the record set that [Present] hands to the write endpoint bears the
    relative name of the call and the configured TTL (converted to 64
    bits; unchanged when it fits), whatever TTL the existing record set
    had, and its TXT records hold one string each, all distinct. *)
Theorem written_record_shape w d domain token keyAuth
    rsc rg zone rt name rec im inm :
  RecordSetsCreateOrUpdateCall rsc rg zone rt name rec im inm
    ∈ (run (Present w d domain token keyAuth)).2 →
  ∃ values,
    NoDup values
    ∧ rec = mkRecordSet (Some name)
              (Some (mkRecordSetProperties
                       (Some (int64 (ConfigTTL (config d))))
                       (Some ((λ v, mkTxtRecord (Some [v])) <$> values))))
    ∧ (inInt64 (ConfigTTL (config d)) →
       Properties rec ≫= TTL = Some (ConfigTTL (config d))).
Proof.
  intros (r & tz & uniq & _ & _ & _ & _ & _ & _ & _ & _ & -> & _)
    %Present_write_call_inv.
  exists (range_keys (map_range w) uniq). split_and!.
  - apply range_keys_NoDup.
  - done.
  - intros Hfit. simpl. unfold to_Int64Ptr. by rewrite int64_inInt64.
Qed.

Lemma written_record_shape_witness :
  ∃ values,
    NoDup values
    ∧ stored "_acme-challenge.www" [txt ["c"]; txt ["a"]; txt ["b"]]
      = mkRecordSet (Some "_acme-challenge.www")
          (Some (mkRecordSetProperties (Some (int64 60))
                   (Some ((λ v, mkTxtRecord (Some [v])) <$> values))))
    ∧ (inInt64 60 →
       Properties (stored "_acme-challenge.www" [txt ["c"]; txt ["a"]; txt ["b"]])
         ≫= TTL = Some 60).
Proof.
  apply (written_record_shape duplicatedWorld testProvider "www.example.com" "token"
           "c" (recordSetsClient testProvider) "rg-1" "example.com" TXT
           "_acme-challenge.www" _ "" "").
  vm_compute. do 3 apply list_elem_of_further. apply list_elem_of_here.
Defined.

(** ** Publishing and retracting *)

(** X4: in a world where [Present] wrote a record set, [CleanUp] with the
    same arguments ends with the delete of that very record set (same
    client, resource group, zone, type and relative name), unconditionally
    (empty [If-Match]), and touches no other record. *)
Theorem cleanup_deletes_what_present_wrote w d domain token keyAuth
    rsc rg zone rt name rec im inm :
  RecordSetsCreateOrUpdateCall rsc rg zone rt name rec im inm
    ∈ (run (Present w d domain token keyAuth)).2 →
  ∃ tz,
    Forall (λ c, isRecordCall c = false) tz
    ∧ (run (CleanUp w d domain token keyAuth)).2 =
        tz ++ [RecordSetsDeleteCall rsc rg zone rt name ""].
Proof.
  intros (r & tz & uniq & Hzone & -> & Hsub & -> & -> & -> & _)
    %Present_write_call_inv.
  exists tz. split; [by eapply getHostedZoneID_trace |].
  by rewrite (CleanUp_delete w d domain token keyAuth zone tz Hzone name Hsub).
Qed.

Lemma cleanup_deletes_what_present_wrote_witness :
  ∃ tz,
    Forall (λ c, isRecordCall c = false) tz
    ∧ (run (CleanUp absentWorld testProvider "www.example.com" "token" "c")).2 =
        tz ++ [RecordSetsDeleteCall (recordSetsClient testProvider) "rg-1"
                 "example.com" TXT "_acme-challenge.www" ""].
Proof.
  apply (cleanup_deletes_what_present_wrote absentWorld testProvider
           "www.example.com" "token" "c" (recordSetsClient testProvider) "rg-1"
           "example.com" TXT "_acme-challenge.www"
           (stored "_acme-challenge.www" [txt ["c"]]) "" "").
  vm_compute. do 3 apply list_elem_of_further. apply list_elem_of_here.
Defined.

(** ** The merged values *)

Lemma length_firstValues records :
  (length (firstValues records) ≤ length records)%nat.
Proof.
  unfold firstValues. induction records as [|r rest IH]; [done |].
  csimpl. destruct (head _); simpl; lia.
Qed.

(** X8: whatever the existing record set holds (repeated values, records
    without a string), the values [Present] writes are pairwise distinct,
    at least one, and at most one more than there were records. *)
Theorem written_values_distinct_and_bounded w d domain token keyAuth
    zone tz subDomain rset :
  run (getHostedZoneID w d (EffectiveFQDN (GetChallengeInfo w domain keyAuth)))
    = ((zone, None), tz) →
  ExtractSubDomain (EffectiveFQDN (GetChallengeInfo w domain keyAuth)) zone
    = Ok subDomain →
  RecordSets_Get w (recordSetsClient d) (ResourceGroup (config d)) zone TXT subDomain
    = Ok rset →
  ∃ rec,
    written (run (Present w d domain token keyAuth)).2 = [rec]
    ∧ NoDup (recordValues rec)
    ∧ (1 ≤ length (recordValues rec) ≤ 1 + length (existingRecords rset))%nat.
Proof.
  intros Hzone Hsub Hget.
  destruct (Present_writes_merge w d domain token keyAuth zone tz subDomain
              Hzone Hsub rset) as (rec & Hrun & Hnd & Hel).
  { by rewrite Hget. }
  exists rec. rewrite Hrun. split_and!; [by eapply written_after_resolution | done | |].
  - assert (ChallengeValue (GetChallengeInfo w domain keyAuth) ∈ recordValues rec)
      as Hin by (apply Hel; by left).
    destruct (recordValues rec); [by apply elem_of_nil in Hin | simpl; lia].
  - pose proof (length_firstValues (existingRecords rset)) as Hlen.
    assert (recordValues rec ⊆+
            ChallengeValue (GetChallengeInfo w domain keyAuth)
              :: firstValues (existingRecords rset)) as Hsub'%submseteq_length.
    { apply NoDup_submseteq; [done |]. intros x [-> | ?]%Hel; set_solver. }
    simpl in Hsub'. lia.
Qed.

Lemma written_values_distinct_and_bounded_witness :
  ∃ rec,
    written (run (Present duplicatedWorld testProvider "www.example.com" "token" "c")).2
    = [rec]
    ∧ NoDup (recordValues rec)
    ∧ (1 ≤ length (recordValues rec) ≤ 1 + 3)%nat.
Proof.
  exact (written_values_distinct_and_bounded duplicatedWorld testProvider
           "www.example.com" "token" "c" "example.com" walkedTrace
           "_acme-challenge.www" _ eq_refl eq_refl eq_refl).
Defined.

(** X9: after a call of [Present] that succeeded, a call for another
    challenge value at the same effective FQDN, whose read returns what the
    first call wrote, writes the values of the first call together with
    the new value: the earlier challenge value is kept. *)
Theorem second_value_is_added w d domain token keyAuth keyAuth' order tr1 :
  run (Present w d domain token keyAuth) = (Returns None, tr1) →
  EffectiveFQDN (GetChallengeInfo w domain keyAuth')
    = EffectiveFQDN (GetChallengeInfo w domain keyAuth) →
  ∃ rec1 rec2,
    written tr1 = [rec1]
    ∧ written (run (Present (refetch w order rec1) d domain token keyAuth')).2 = [rec2]
    ∧ NoDup (recordValues rec2)
    ∧ ChallengeValue (GetChallengeInfo w domain keyAuth) ∈ recordValues rec2
    ∧ ∀ x, x ∈ recordValues rec2 ↔
           x ∈ recordValues rec1
           ∨ x = ChallengeValue (GetChallengeInfo w domain keyAuth').
Proof.
  intros Hrun Hfqdn.
  destruct (Present_cases w d domain token keyAuth) as (zone & r & tz & Hzone & Hcase).
  destruct r as [e|]; [congruence |].
  destruct (ExtractSubDomain _ zone) as [subDomain|e] eqn:Hsub; [| congruence].
  destruct (fetched _) as [rset|] eqn:Hget;
    [| destruct Hcase as (e & _ & _ & Hcase); congruence].
  destruct Hcase as (uniq & Huniq & Hrun1). cbv zeta in Hrun1.
  rewrite Hrun1 in Hrun. injection Hrun as _ <-.
  destruct (uniqRecords_dom (GetChallengeInfo w domain keyAuth) rset)
    as (uniq' & Huniq' & Hdom).
  rewrite Huniq in Huniq'. injection Huniq' as <-.
  pose proof (firstValues_newRecordSet w d subDomain uniq) as Hfirst.
  set (rec1 := newRecordSet d subDomain (txtRecords w uniq)) in *.
  assert (∀ x, x ∈ recordValues rec1 ↔ x ∈ dom uniq) as Hel1
    by (intros x; apply newRecordSet_elem).
  rewrite <-Hfqdn in Hzone, Hsub.
  destruct (Present_writes_merge (refetch w order rec1) d domain token keyAuth'
              zone tz subDomain Hzone Hsub rec1 eq_refl) as (rec2 & Hrun2 & Hnd2 & Hel2).
  assert (∀ x, x ∈ recordValues rec2 ↔
               x ∈ recordValues rec1
               ∨ x = ChallengeValue (GetChallengeInfo w domain keyAuth')) as Hboth.
  { intros x. rewrite Hel2, Hfirst. simpl. tauto. }
  exists rec1, rec2. split_and!; [| | done | | done].
  - by eapply written_after_resolution.
  - rewrite Hrun2. by eapply (written_after_resolution (refetch w order rec1)).
  - apply Hboth. left. apply Hel1. rewrite Hdom. set_solver.
Qed.

Lemma second_value_is_added_witness :
  ∃ rec1 rec2,
    written (run (Present absentWorld testProvider "www.example.com" "token" "c")).2
    = [rec1]
    ∧ written (run (Present (refetch absentWorld rangeBackward rec1) testProvider
                            "www.example.com" "token" "c2")).2 = [rec2]
    ∧ NoDup (recordValues rec2)
    ∧ "c" ∈ recordValues rec2
    ∧ ∀ x, x ∈ recordValues rec2 ↔ x ∈ recordValues rec1 ∨ x = "c2".
Proof.
  apply (second_value_is_added absentWorld testProvider "www.example.com" "token"
           "c" "c2" rangeBackward); reflexivity.
Defined.
